(** * zerodha-mcp clients: connection lifecycle of the MCP client programs

    A shallow embedding of the three client programs of the repository,

      - [src/client/agno_client.py]         (terminal client, agno runtime)
      - [src/client/agno_gradio_client.py]  (web client, agno runtime)
      - [src/client/google_adk_client.py]   (terminal client, Google ADK)

    The programs are sequences of calls into external libraries (the MCP
    SSE transport, the MCP client session, the agent runtime, the console)
    wrapped in Python [try]/[except]/[finally] blocks.  The embedding is a
    state-and-exception monad over a world that records every external call
    in a trace; the behaviour of the external libraries is an oracle that
    decides, from the trace so far, whether the next call returns or
    raises. *)

From Stdlib Require Import ZArith Ascii String Lia.
From stdpp Require Import base option list strings gmap pretty.

Local Open Scope Z_scope.

(** ** Python runtime: exceptions, results, the state-and-exception monad *)
Module Py.

(** The exception classes the programs raise, catch or let through.
    [KeyboardInterrupt] and [CancelledError] derive from [BaseException]
    only; the four others derive from [Exception]. *)
Inductive exn_class :=
  | ExceptionC | EOFErrorC | ValueErrorC | AttributeErrorC
  | KeyboardInterruptC | CancelledErrorC.

(** An exception object: its class and the text [str(e)]. *)
Record exn := Exn { exn_cls : exn_class; exn_str : string }.

Global Instance exn_class_eq_dec : EqDecision exn_class.
Proof. solve_decision. Defined.
Global Instance exn_eq_dec : EqDecision exn.
Proof. solve_decision. Defined.

(** [isinstance(e, Exception)]. *)
Definition is_Exception (e : exn) : bool :=
  match exn_cls e with
  | KeyboardInterruptC | CancelledErrorC => false
  | _ => true
  end.

(** [isinstance(e, EOFError)]. *)
Definition is_EOFError (e : exn) : bool :=
  match exn_cls e with EOFErrorC => true | _ => false end.

(** [isinstance(e, ValueError)]. *)
Definition is_ValueError (e : exn) : bool :=
  match exn_cls e with ValueErrorC => true | _ => false end.

Inductive result (A : Type) :=
  | Return (a : A)
  | Raise (e : exn).
Arguments Return {A} a.
Arguments Raise {A} e.

Global Instance result_eq_dec {A} `{EqDecision A} : EqDecision (result A).
Proof. solve_decision. Defined.

(** A computation over a state [Σ]: the state is threaded through also
    when an exception is raised, as attribute assignments made before a
    [raise] stay visible in Python. *)
Definition M (Σ A : Type) : Type := Σ → result A * Σ.

Definition ret {Σ A} (a : A) : M Σ A := λ s, (Return a, s).
Definition raise {Σ A} (e : exn) : M Σ A := λ s, (Raise e, s).
Definition bind {Σ A B} (m : M Σ A) (k : A → M Σ B) : M Σ B :=
  λ s, match m s with
       | (Return a, s') => k a s'
       | (Raise e, s') => (Raise e, s')
       end.
Definition modify {Σ} (f : Σ → Σ) : M Σ unit := λ s, (Return tt, f s).

(** [try: body  except <class> as e: handler e]. *)
Definition try_except {Σ A} (catches : exn → bool)
    (body : M Σ A) (handler : exn → M Σ A) : M Σ A :=
  λ s, match body s with
       | (Return a, s') => (Return a, s')
       | (Raise e, s') => if catches e then handler e s' else (Raise e, s')
       end.

(** [try: body  finally: fin].  The [finally] suite always runs; an
    exception it raises replaces the outcome of the body. *)
Definition try_finally {Σ A} (body : M Σ A) (fin : M Σ unit) : M Σ A :=
  λ s, match body s with
       | (r, s') =>
           match fin s' with
           | (Return _, s'') => (r, s'')
           | (Raise e, s'') => (Raise e, s'')
           end
       end.

(** *** [str.lower()], on ASCII text *)
Definition ascii_lower (c : ascii) : ascii :=
  let n := N_of_ascii c in
  if ((65 <=? n) && (n <=? 90))%N then ascii_of_N (n + 32) else c.

Fixpoint lower (s : string) : string :=
  match s with
  | EmptyString => EmptyString
  | String c r => String (ascii_lower c) (lower r)
  end.

(** *** [int(s)] for a [str] argument, base 10, on ASCII text:
    surrounding whitespace is stripped, one sign is allowed, and digits
    may be grouped by single underscores. *)
Definition is_py_space (c : ascii) : bool :=
  let n := N_of_ascii c in
  (((9 <=? n) && (n <=? 13)) || ((28 <=? n) && (n <=? 32)))%N.

Fixpoint lstrip (s : string) : string :=
  match s with
  | EmptyString => EmptyString
  | String c r => if is_py_space c then lstrip r else s
  end.

Definition strip (s : string) : string :=
  String.rev (lstrip (String.rev (lstrip s))).

Fixpoint int_digits (s : string) (acc : Z) (after_digit : bool) : option Z :=
  match s with
  | EmptyString => if after_digit then Some acc else None
  | String c r =>
      match Ascii.is_nat c with
      | Some d => int_digits r (10 * acc + Z.of_nat d) true
      | None =>
          if Ascii.eqb c "_" && after_digit then int_digits r acc false
          else None
      end
  end.

Definition int_literal (s : string) : option Z :=
  match strip s with
  | String "+" r => int_digits r 0 false
  | String "-" r => Z.opp <$> int_digits r 0 false
  | t => int_digits t 0 false
  end.

Definition py_int {Σ} (s : string) : M Σ Z :=
  match int_literal s with
  | Some z => ret z
  | None =>
      raise (Exn ValueErrorC
               ("invalid literal for int() with base 10: '" +:+ s +:+ "'"))
  end.

(** [str(n)] and [f"{n}"] for an [int]. *)
Definition str_int (n : Z) : string := pretty n.

(** [a or b] on strings and on integers: the left operand unless it is
    falsy ([None], the empty string, zero). *)
Definition truthy_str (a : option string) : option string :=
  match a with
  | Some s => if decide (s = "") then None else Some s
  | None => None
  end.

Definition truthy_int (a : option Z) : option Z :=
  match a with
  | Some n => if decide (n = 0) then None else Some n
  | None => None
  end.

(** [needle in text] for two [str]: [needle] occurs somewhere in [text]. *)
Fixpoint str_in (needle text : string) : bool :=
  Stdlib.Strings.String.prefix needle text
  || match text with
     | EmptyString => false
     | String _ rest => str_in needle rest
     end.

End Py.

Declare Scope py_scope.
Delimit Scope py_scope with py.
Notation "x ← y ; z" := (Py.bind y (λ x, z))
  (at level 20, y at level 100, z at level 200, only parsing) : py_scope.
Notation "x ;; z" := (Py.bind x (λ _, z))
  (at level 100, z at level 200, only parsing, right associativity) : py_scope.

Local Open Scope py_scope.

(** ** The external world: library objects, calls, the trace *)
Module Lib.
Import Py.

(** Library objects (context managers, sessions) are identified by the
    order of their creation. *)
Definition handle := nat.

(** The keyword arguments of agno's [Agent(...)] that the clients set,
    the instruction text apart (opaque configuration). *)
Record AgentConfig := mkAgentConfig {
  model_id : string;
  tools : list handle;
  show_tool_calls : bool;
  markdown : bool;
  add_history_to_messages : bool;
  num_history_responses : Z;
  read_tool_call_history : bool;
  read_chat_history : bool;
  tool_call_limit : Z;
  telemetry : bool;
  add_datetime_to_instructions : bool;
}.

Global Instance AgentConfig_eq_dec : EqDecision AgentConfig.
Proof. solve_decision. Defined.

(** The tools of the ADK agent: an MCP toolset, and the module-level
    [search_agent_tool]. *)
Inductive AdkTool :=
  | Toolset (toolset : handle)
  | SearchAgentTool.

Arguments Toolset toolset%_nat.

Global Instance AdkTool_eq_dec : EqDecision AdkTool.
Proof. solve_decision. Defined.

(** The calls the clients make into the MCP library and the agent
    runtimes. *)
Inductive Op :=
  | SseClientEnter (ctx : handle) (url : string)
      (* await sse_client(url=url).__aenter__() *)
  | ClientSessionNew (streams : handle)
      (* ClientSession over the two streams returned by [streams] *)
  | ClientSessionEnter (ctx : handle)
      (* await session_context.__aenter__() *)
  | SessionInitialize (session : handle)
  | SessionListTools (session : handle)
  | ClientSessionExit (ctx : handle)
      (* await session_context.__aexit__(None, None, None) *)
  | SseClientExit (ctx : handle)
      (* await streams_context.__aexit__(None, None, None) *)
  | McpToolsNew (session : option handle)      (* MCPTools(session=...) *)
  | McpToolsInitialize (mcp_tools : handle)    (* await mcp_tools.initialize() *)
  | AgentNew (cfg : AgentConfig)               (* Agent(...) *)
  | AgentRun (message : string) (stream : bool)
      (* agent.arun(message, stream=...), runner.run_async(...) *)
  | McpToolsetNew (url : string)               (* McpToolset(connection_params=...) *)
  | LlmAgentNew (tools : list AdkTool)         (* LlmAgent(...) *)
  | RunnerNew (agent : handle)
      (* InMemorySessionService(); Runner(agent=..., ...) *)
  | CreateSession                              (* session_service.create_session *)
  | ExitStackAclose.                           (* await exit_stack.aclose() *)

Arguments SseClientEnter ctx%_nat url.
Arguments ClientSessionNew streams%_nat.
Arguments ClientSessionEnter ctx%_nat.
Arguments SessionInitialize session%_nat.
Arguments SessionListTools session%_nat.
Arguments ClientSessionExit ctx%_nat.
Arguments SseClientExit ctx%_nat.
Arguments McpToolsInitialize mcp_tools%_nat.
Arguments RunnerNew agent%_nat.

Global Instance Op_eq_dec : EqDecision Op.
Proof. solve_decision. Defined.

(** What an observer of the process sees, in order. *)
Inductive Event :=
  | Call (op : Op) (err : option exn)   (* a library call and how it ended *)
  | Ask (answer : result string)        (* Prompt.ask(...) *)
  | Print (text : string)               (* console.print(...) *)
  | Log (text : string).                (* logger.error(...) *)

Global Instance Event_eq_dec : EqDecision Event.
Proof. solve_decision. Defined.

Record World := mkWorld { trace : list Event; next_id : handle }.
Arguments mkWorld trace next_id%_nat.

(** The world after some more events. *)
Definition extend (w : World) (evs : list Event) : World :=
  {| trace := trace w ++ evs; next_id := next_id w |}.

Definition alloc (w : World) : World :=
  {| trace := trace w; next_id := S (next_id w) |}.

(** The environment: whether a library call raises, given everything that
    happened before it, and what the agent runtime answers to a message.
    [R] is the shape of an agent answer, which differs between the
    runtimes. *)
Record Oracle (R : Type) := mkOracle {
  lib : list Event → Op → option exn;
  runtime : list Event → string → R;
}.
Arguments mkOracle {R} _ _.
Arguments lib {R} _ _ _.
Arguments runtime {R} _ _ _.

Section Calls.
Context {R X : Type} (env : Oracle R).

(** A library call: recorded in the trace with its outcome. *)
Definition call (op : Op) : M (World * X) unit :=
  λ '(w, x),
    match lib env (trace w) op with
    | None => (Return tt, (extend w [Call op None], x))
    | Some e => (Raise e, (extend w [Call op (Some e)], x))
    end.

(** A library call that builds a new object. *)
Definition call_new (op : Op) : M (World * X) handle :=
  λ '(w, x),
    match lib env (trace w) op with
    | None => (Return (next_id w), (alloc (extend w [Call op None]), x))
    | Some e => (Raise e, (extend w [Call op (Some e)], x))
    end.
End Calls.

(** Building a context-manager object does no I/O and cannot fail. *)
Definition new_object {X} : M (World * X) handle :=
  λ '(w, x), (Return (next_id w), (alloc w, x)).

Definition print {X} (text : string) : M (World * X) unit :=
  λ '(w, x), (Return tt, (extend w [Print text], x)).

Definition logger_error {X} (text : string) : M (World * X) unit :=
  λ '(w, x), (Return tt, (extend w [Log text], x)).

(** The loggers are configured at level ERROR (or silenced):
    [logger.debug] emits nothing. *)
Definition logger_debug {X} (text : string) : M (World * X) unit := ret tt.

(** [Prompt.ask]: the next line of standard input.  An exhausted input
    raises [EOFError]; an interrupt raises [KeyboardInterrupt]. *)
Definition next_line (stdin : list (result string)) : result string :=
  match stdin with
  | [] => Raise (Exn EOFErrorC "")
  | line :: _ => line
  end.

Definition prompt_ask {X} (stdin : list (result string)) : M (World * X) string :=
  λ '(w, x), (next_line stdin, (extend w [Ask (next_line stdin)], x)).

(** The events of a run: what [w'] has recorded beyond [w]. *)
Definition events_since (w w' : World) : list Event :=
  drop (length (trace w)) (trace w').

(** How often a call was attempted in a list of events. *)
Definition is_call (op : Op) (ev : Event) : bool :=
  match ev with
  | Call op' _ => bool_decide (op' = op)
  | _ => false
  end.

Definition attempts (op : Op) (evs : list Event) : nat :=
  length (List.filter (is_call op) evs).

(** A close of a session or of a transport stream. *)
Definition is_close (ev : Event) : bool :=
  match ev with
  | Call (ClientSessionExit _) _ | Call (SseClientExit _) _ => true
  | _ => false
  end.

End Lib.

(** ** Command line and environment ([argparse], [os.environ]) *)
Module Cli.
Import Py Lib.

(** [parser.parse_args()]: [--host] is a string, [--port] is parsed by
    [type=int]; an option that was not given is [None]. *)
Record Args := mkArgs { host : option string; port : option Z }.

Section Resolve.
Context {X : Type} (args : Args) (environ : gmap string string).

(** [os.environ.get(key, default)] *)
Definition environ_get (key fallback : string) : string :=
  default fallback (environ !! key).

(** [args.host or os.environ.get("MCP_HOST", "localhost")] *)
Definition mcp_host : string :=
  match truthy_str (host args) with
  | Some h => h
  | None => environ_get "MCP_HOST" "localhost"
  end.

(** [args.port or int(os.environ.get("MCP_PORT", "8001"))] *)
Definition mcp_port : M X Z :=
  match truthy_int (port args) with
  | Some p => ret p
  | None => py_int (environ_get "MCP_PORT" "8001")
  end.

(** [f"http://{mcp_host}:{mcp_port}/sse"] *)
Definition sse_url (h : string) (p : Z) : string :=
  "http://" +:+ h +:+ ":" +:+ str_int p +:+ "/sse".

Definition mcp_url : M X string :=
  p ← mcp_port; ret (sse_url mcp_host p).
End Resolve.

End Cli.

(** ** [src/client/agno_gradio_client.py] *)
Module GradioClient.
Import Py Lib.

(** [class MCPClient]; [None] is Python's [None]: [__init__] assigns all
    three attributes. *)
Record MCPClient := mkMCPClient {
  session : option handle;
  _streams_context : option handle;
  _session_context : option handle;
}.

(** [MCPClient.__init__] *)
Definition MCPClient_init : MCPClient := mkMCPClient None None None.

(** [class ZerodhaAssistant]; the assistant is the only holder of its
    client object, which is kept by value. *)
Record ZerodhaAssistant := mkZerodhaAssistant {
  client : option MCPClient;
  agent : option AgentConfig;
  connected : bool;
}.

(** [ZerodhaAssistant.__init__] *)
Definition ZerodhaAssistant_init : ZerodhaAssistant :=
  mkZerodhaAssistant None None false.

(** The module-level [assistant], and the list objects the web framework
    hands to the handlers: a list is addressed by its position in the
    store, and a list built by [+] is a new object. *)
Record Globals := mkGlobals {
  assistant : ZerodhaAssistant;
  lists : list (list (list string));
}.

(** [agent.arun(message, stream=False)]: the [content] of the response,
    or an exception. *)
Definition Reply : Type := result string.

(** The arguments of [Agent(...)] in [ZerodhaAssistant.connect]. *)
Definition agent_config (mcp_tools : handle) : AgentConfig :=
  {| model_id := "gpt-4o";
     tools := [mcp_tools];
     show_tool_calls := false;
     markdown := false;
     add_history_to_messages := true;
     num_history_responses := 10;
     read_tool_call_history := true;
     read_chat_history := true;
     tool_call_limit := 10;
     telemetry := false;
     add_datetime_to_instructions := true |}.

(** [obj.attr...] on an attribute that holds [None] *)
Definition deref {X} (o : option handle) (attr : string) : M X handle :=
  match o with
  | Some h => ret h
  | None =>
      raise (Exn AttributeErrorC
               ("'NoneType' object has no attribute '" +:+ attr +:+ "'"))
  end.

Section Client.
Context (env : Oracle Reply).
Local Abbreviation ClientM := (M (World * MCPClient)).

Definition self : ClientM MCPClient := λ s, (Return (snd s), s).

Definition set_session (v : option handle) : ClientM unit :=
  modify (λ '(w, c), (w, mkMCPClient v (_streams_context c) (_session_context c))).
Definition set_streams_context (v : option handle) : ClientM unit :=
  modify (λ '(w, c), (w, mkMCPClient (session c) v (_session_context c))).
Definition set_session_context (v : option handle) : ClientM unit :=
  modify (λ '(w, c), (w, mkMCPClient (session c) (_streams_context c) v)).

(** [MCPClient.cleanup] *)
Definition cleanup : ClientM unit :=
  c ← self;
  match _session_context c with
  | Some ctx => call env (ClientSessionExit ctx)
  | None => ret tt
  end;;
  c ← self;
  match _streams_context c with
  | Some ctx => call env (SseClientExit ctx)
  | None => ret tt
  end;;
  set_session None.

(** [MCPClient.connect_to_sse_server] *)
Definition connect_to_sse_server (server_url : string) : ClientM bool :=
  try_except is_Exception
    (ctx ← new_object;
     set_streams_context (Some ctx);;
     c ← self;
     streams ← deref (_streams_context c) "__aenter__";
     call env (SseClientEnter streams server_url);;
     sctx ← call_new env (ClientSessionNew streams);
     set_session_context (Some sctx);;
     c ← self;
     sctx ← deref (_session_context c) "__aenter__";
     call env (ClientSessionEnter sctx);;
     set_session (Some sctx);;
     c ← self;
     s ← deref (session c) "initialize";
     call env (SessionInitialize s);;
     c ← self;
     s ← deref (session c) "list_tools";
     call env (SessionListTools s);;
     ret true)
    (λ e, cleanup;; raise e).

(** [MCPClient.disconnect] *)
Definition disconnect : ClientM unit := cleanup.
End Client.

Section Assistant.
Context (env : Oracle Reply).
Local Abbreviation AssistantM := (M (World * ZerodhaAssistant)).

Definition this : AssistantM ZerodhaAssistant := λ s, (Return (snd s), s).

Definition set_client (v : option MCPClient) : AssistantM unit :=
  modify (λ '(w, a), (w, mkZerodhaAssistant v (agent a) (connected a))).
Definition set_agent (v : option AgentConfig) : AssistantM unit :=
  modify (λ '(w, a), (w, mkZerodhaAssistant (client a) v (connected a))).
Definition set_connected (v : bool) : AssistantM unit :=
  modify (λ '(w, a), (w, mkZerodhaAssistant (client a) (agent a) v)).

(** A method call on [self.client]. *)
Definition with_client {A} (attr : string)
    (m : M (World * MCPClient) A) : AssistantM A :=
  λ '(w, a),
    match client a with
    | Some c =>
        match m (w, c) with
        | (r, (w', c')) =>
            (r, (w', mkZerodhaAssistant (Some c') (agent a) (connected a)))
        end
    | None =>
        (Raise (Exn AttributeErrorC
                  ("'NoneType' object has no attribute '" +:+ attr +:+ "'")),
         (w, a))
    end.

(** [await self.agent.arun(message, stream=False)] and [.content] *)
Definition agent_arun (message : string) : AssistantM string :=
  λ '(w, a),
    match runtime env (trace w) message with
    | Return content =>
        (Return content, (extend w [Call (AgentRun message false) None], a))
    | Raise e =>
        (Raise e, (extend w [Call (AgentRun message false) (Some e)], a))
    end.

(** The [try] suite of [ZerodhaAssistant.connect] *)
Definition connect_steps (host : string) (port : Z) : AssistantM string :=
  let mcp_url := "http://" +:+ host +:+ ":" +:+ str_int port +:+ "/sse" in
  set_client (Some MCPClient_init);;
  with_client "connect_to_sse_server" (connect_to_sse_server env mcp_url);;
  s ← with_client "session" (c ← self; ret (session c));
  mcp_tools ← call_new env (McpToolsNew s);
  call env (McpToolsInitialize mcp_tools);;
  call env (AgentNew (agent_config mcp_tools));;
  set_agent (Some (agent_config mcp_tools));;
  set_connected true;;
  ret "Connected successfully! Ready to assist you.".

(** The [except Exception as e] suite of [ZerodhaAssistant.connect] *)
Definition connect_failed (e : exn) : AssistantM string :=
  a ← this;
  match client a with
  | Some _ => with_client "disconnect" (disconnect env)
  | None => ret tt
  end;;
  set_client None;;
  set_agent None;;
  set_connected false;;
  ret ("Failed to connect: " +:+ exn_str e).

(** [ZerodhaAssistant.connect] *)
Definition connect (host : string) (port : Z) : AssistantM string :=
  a ← this;
  if connected a then ret "Already connected!"
  else try_except is_Exception (connect_steps host port) connect_failed.

(** [ZerodhaAssistant.disconnect] *)
Definition assistant_disconnect : AssistantM string :=
  a ← this;
  if negb (connected a) then ret "Not connected!"
  else
    try_except is_Exception
      (a ← this;
       match client a with
       | Some _ => with_client "disconnect" (disconnect env)
       | None => ret tt
       end;;
       set_client None;;
       set_agent None;;
       set_connected false;;
       ret "Disconnected successfully!")
      (λ e, ret ("Error during disconnect: " +:+ exn_str e)).

(** [ZerodhaAssistant.chat] *)
Definition chat (message : string) : AssistantM string :=
  a ← this;
  if negb (connected a) || negb (bool_decide (is_Some (agent a))) then
    ret "Not connected to MCP server! Please connect first."
  else
    try_except is_Exception
      (agent_arun message)
      (λ e, ret ("Error: " +:+ exn_str e)).
End Assistant.

Section Handlers.
Context (env : Oracle Reply).
Local Abbreviation HandlerM := (M (World * Globals)).

(** A method call on the global [assistant]. *)
Definition on_assistant {A} (m : M (World * ZerodhaAssistant) A) : HandlerM A :=
  λ '(w, g),
    match m (w, assistant g) with
    | (r, (w', a')) => (r, (w', mkGlobals a' (lists g)))
    end.

(** [history + [[message, response]]]: list concatenation builds a new
    list object and leaves its operands alone. *)
Definition list_add (history : handle) (pair : list string) : HandlerM handle :=
  λ '(w, g),
    match lists g !! history with
    | Some entries =>
        (Return (length (lists g)),
         (w, mkGlobals (assistant g) (lists g ++ [entries ++ [pair]])))
    | None =>
        (Raise (Exn ExceptionC "unsupported operand type(s) for +"), (w, g))
    end.

(** [connect_handler]; the port arrives as the text of a text box. *)
Definition connect_handler (host port : string) : HandlerM string :=
  try_except is_Exception
    (try_except is_ValueError
       (port_num ← py_int port;
        on_assistant (connect env host port_num))
       (λ _, ret "Invalid port number!"))
    (λ e, ret ("Connection error: " +:+ exn_str e)).

(** [disconnect_handler] *)
Definition disconnect_handler : HandlerM string :=
  on_assistant (assistant_disconnect env).

(** [chat_handler] *)
Definition chat_handler (message : string) (history : handle) : HandlerM handle :=
  a ← on_assistant this;
  if negb (connected a) || negb (bool_decide (is_Some (agent a))) then
    list_add history
      [message; "Not connected to MCP server! Please connect first."]
  else
    try_except is_Exception
      (response ← on_assistant (agent_arun env message);
       list_add history [message; response])
      (λ e, list_add history [message; "Error: " +:+ exn_str e]).
End Handlers.

(** The two updates that [enable_chat] returns: [msg_box] and [send_btn]. *)
Record ChatControls := mkChatControls {
  msg_box_interactive : bool;
  msg_box_placeholder : string;
  send_btn_interactive : bool;
}.

(** [enable_chat] *)
Definition enable_chat (status_text : string) : ChatControls :=
  let is_connected := str_in "Connected successfully" status_text in
  {| msg_box_interactive := is_connected;
     msg_box_placeholder :=
       if is_connected then "Type your message here..."
       else "Connect to MCP server first...";
     send_btn_interactive := is_connected |}.

End GradioClient.

(** ** [src/client/agno_client.py] *)
Module AgnoClient.
Import Py Lib.

(** [class MCPClient].  [__init__] assigns [session] and [exit_stack]
    only: for the two context attributes [None] stands for an attribute
    that was never assigned, and reading it raises [AttributeError]. *)
Record MCPClient := mkMCPClient {
  session : option handle;
  exit_stack : list handle;
  _streams_context : option handle;
  _session_context : option handle;
}.

(** [MCPClient.__init__] *)
Definition MCPClient_init : MCPClient := mkMCPClient None [] None None.

(** [agent.arun(query, stream=True)] and the iteration over its result:
    the [content] of the responses it yields, and the exception that ends
    it early, if any. *)
Record Reply := mkReply { chunks : list string; failure : option exn }.

(** The arguments of [Agent(...)] in [main]. *)
Definition agent_config (mcp_tools : handle) : AgentConfig :=
  {| model_id := "gpt-4o";
     tools := [mcp_tools];
     show_tool_calls := false;
     markdown := true;
     add_history_to_messages := true;
     num_history_responses := 10;
     read_tool_call_history := true;
     read_chat_history := true;
     tool_call_limit := 10;
     telemetry := false;
     add_datetime_to_instructions := true |}.

Definition getattr {X} (o : option handle) (attr : string) : M X handle :=
  match o with
  | Some h => ret h
  | None =>
      raise (Exn AttributeErrorC
               ("'MCPClient' object has no attribute '" +:+ attr +:+ "'"))
  end.

Definition deref {X} (o : option handle) (attr : string) : M X handle :=
  match o with
  | Some h => ret h
  | None =>
      raise (Exn AttributeErrorC
               ("'NoneType' object has no attribute '" +:+ attr +:+ "'"))
  end.

Section Client.
Context (env : Oracle Reply).
Local Abbreviation ClientM := (M (World * MCPClient)).

Definition self : ClientM MCPClient := λ s, (Return (snd s), s).

Definition set_session (v : option handle) : ClientM unit :=
  modify (λ '(w, c),
    (w, mkMCPClient v (exit_stack c) (_streams_context c) (_session_context c))).
Definition set_streams_context (v : option handle) : ClientM unit :=
  modify (λ '(w, c),
    (w, mkMCPClient (session c) (exit_stack c) v (_session_context c))).
Definition set_session_context (v : option handle) : ClientM unit :=
  modify (λ '(w, c),
    (w, mkMCPClient (session c) (exit_stack c) (_streams_context c) v)).

(** [MCPClient.connect_to_sse_server] *)
Definition connect_to_sse_server (server_url : string) : ClientM unit :=
  ctx ← new_object;
  set_streams_context (Some ctx);;
  c ← self;
  streams ← getattr (_streams_context c) "_streams_context";
  call env (SseClientEnter streams server_url);;
  sctx ← call_new env (ClientSessionNew streams);
  set_session_context (Some sctx);;
  c ← self;
  sctx ← getattr (_session_context c) "_session_context";
  call env (ClientSessionEnter sctx);;
  set_session (Some sctx);;
  c ← self;
  s ← deref (session c) "initialize";
  call env (SessionInitialize s);;
  c ← self;
  s ← deref (session c) "list_tools";
  call env (SessionListTools s).

(** [MCPClient.cleanup] *)
Definition cleanup : ClientM unit :=
  c ← self;
  ctx ← getattr (_session_context c) "_session_context";
  call env (ClientSessionExit ctx);;
  c ← self;
  ctx ← getattr (_streams_context c) "_streams_context";
  call env (SseClientExit ctx).

(** [MCPClient.disconnect] *)
Definition disconnect : ClientM unit := cleanup.

(** [console.print(response.content, ...)] for each response with a
    non-empty content *)
Fixpoint print_chunks (cs : list string) : ClientM unit :=
  match cs with
  | [] => ret tt
  | content :: rest =>
      (if decide (content = "") then ret tt else print content);;
      print_chunks rest
  end.

(** [result = await agent.arun(user_query, stream=True)] and the
    [async for] over it *)
Definition agent_arun (user_query : string) : ClientM unit :=
  λ '(w, c),
    let reply := runtime env (trace w) user_query in
    (print_chunks (chunks reply);;
     match failure reply with
     | Some e => raise e
     | None => ret tt
     end)
      (extend w [Call (AgentRun user_query true) (failure reply)], c).

(** One pass through the body of [while True]; [continue] stands for the
    passes that follow it. *)
Definition turn (stdin : list (result string)) (continue : ClientM unit)
    : ClientM unit :=
  print "";;
  user_query ← prompt_ask stdin;
  if decide (lower user_query = "quit") then ret tt
  else
    print "";;
    print ("[user]You:[/user] " +:+ user_query);;
    print "";;
    print "[assistant]Assistant:[/assistant] ";;
    agent_arun user_query;;
    print "";;
    print "";;
    continue.

(** [while True: ...] over the lines that standard input still holds *)
Fixpoint loop (stdin : list (result string)) : ClientM unit :=
  match stdin with
  | [] => turn [] (ret tt)
  | _ :: rest => turn stdin (loop rest)
  end.

(** The [try] / [except Exception] / [finally] statement of [main] *)
Definition interactive_session (stdin : list (result string)) : ClientM unit :=
  try_finally
    (try_except is_Exception
       (loop stdin)
       (λ e, print ("[danger]An error occurred: " +:+ exn_str e +:+ "[/danger]")))
    disconnect.

(** [main] *)
Definition main (args : Cli.Args) (environ : gmap string string)
    (stdin : list (result string)) : ClientM unit :=
  mcp_url ← Cli.mcp_url args environ;
  modify (λ '(w, _), (w, MCPClient_init));;
  connect_to_sse_server mcp_url;;
  c ← self;
  s ← deref (session c) "list_tools";
  call env (SessionListTools s);;
  c ← self;
  mcp_tools ← call_new env (McpToolsNew (session c));
  call env (McpToolsInitialize mcp_tools);;
  call env (AgentNew (agent_config mcp_tools));;
  print "";;
  print "[info]Welcome to Zerodha! I'm here to assist you with managing your trading account, orders, portfolio, and positions. How can I help you today?[/info]";;
  interactive_session stdin.
End Client.

End AgnoClient.

(** ** [src/client/google_adk_client.py] *)
Module AdkClient.
Import Py Lib.

(** An event of [runner.run_async]: [content] is [None] or the texts of
    its parts (an absent text is the empty text). *)
Record adk_event := mkEvent {
  is_final_response : bool;
  content : option (list string);
}.

Record Reply := mkReply { events : list adk_event; failure : option exn }.

(** [final_response_text += part.text] for every part with a text, of
    every final response that has a content *)
Definition add_parts (text : string) (parts : list string) : string :=
  foldl (λ acc part, if decide (part = "") then acc else acc +:+ part)
        text parts.

Definition add_event (text : string) (ev : adk_event) : string :=
  match content ev with
  | Some parts => if is_final_response ev then add_parts text parts else text
  | None => text
  end.

Definition response_text (evs : list adk_event) : string :=
  foldl add_event "" evs.

Section Client.
Context (env : Oracle Reply).
Local Abbreviation MainM := (M (World * unit)).

(** [runner.run_async(...)] and the [async for] over its events *)
Definition run_async (user_query : string) : MainM string :=
  λ '(w, u),
    let reply := runtime env (trace w) user_query in
    (match failure reply with
     | Some e => Raise e
     | None => Return (response_text (events reply))
     end,
     (extend w [Call (AgentRun user_query true) (failure reply)], u)).

(** One pass through the body of [while True] *)
Definition turn (stdin : list (result string)) (continue : MainM unit)
    : MainM unit :=
  print "";;
  user_query ← try_except is_EOFError (prompt_ask stdin) (λ _, ret "quit");
  if decide (lower user_query = "quit") then ret tt
  else
    print ("[user]You:[/user] " +:+ user_query);;
    print "";;
    final_response_text ←
      try_except is_Exception
        (run_async user_query)
        (λ runner_ex,
           logger_error ("[danger]Error during runner execution: "
                         +:+ exn_str runner_ex +:+ "[/danger]");;
           ret ("[bold red]Error: " +:+ exn_str runner_ex +:+ "[/bold red]"));
    print ("[assistant]Assistant:[/assistant] " +:+ final_response_text);;
    print "";;
    continue.

Fixpoint loop (stdin : list (result string)) : MainM unit :=
  match stdin with
  | [] => turn [] (ret tt)
  | _ :: rest => turn stdin (loop rest)
  end.

(** The [try] suite of [main] *)
Definition setup_and_loop (mcp_url : string) (stdin : list (result string))
    : MainM unit :=
  logger_debug ("[info]Connecting to MCP server at " +:+ mcp_url
                +:+ " via MCPToolset...[/info]");;
  tools1 ← call_new env (McpToolsetNew mcp_url);
  agent ← call_new env (LlmAgentNew [Toolset tools1; SearchAgentTool]);
  call env (RunnerNew agent);;
  call env CreateSession;;
  print "[info]Session created: <session>[/info]";;
  print "";;
  print "[info]Welcome to Zerodha! (Running in non-live test mode)[/info]";;
  loop stdin.

(** [await exit_stack.aclose()]: nothing was ever pushed on the stack, so
    the call closes nothing and cannot fail. *)
Definition exit_stack_aclose : MainM unit :=
  λ '(w, u), (Return tt, (extend w [Call ExitStackAclose None], u)).

(** The [try] / [except Exception] / [finally] statement of [main] *)
Definition interactive_session (mcp_url : string)
    (stdin : list (result string)) : MainM unit :=
  try_finally
    (try_except is_Exception
       (setup_and_loop mcp_url stdin)
       (λ e, logger_error ("[danger]Error in main execution loop: "
                           +:+ exn_str e +:+ "[/danger]")))
    (exit_stack_aclose;;
     logger_debug "[info]MCPToolset connection closed and resources cleaned up.[/info]";;
     print "[info]Exiting client.[/info]").

(** [main] *)
Definition main (args : Cli.Args) (environ : gmap string string)
    (stdin : list (result string)) : MainM unit :=
  mcp_url ← Cli.mcp_url args environ;
  interactive_session mcp_url stdin.
End Client.

End AdkClient.

(** ** The specification's own words, for comparison with the code *)
Module Spec.
Import Py Lib.

(** "the MCP host resolves to the [--host] flag if given, else the
    [MCP_HOST] environment variable, else [localhost]" *)
Definition host_by_precedence (args : Cli.Args)
    (environ : gmap string string) : string :=
  match Cli.host args with
  | Some h => h
  | None => default "localhost" (environ !! "MCP_HOST")
  end.

(** "the port resolves to the [--port] flag if given, else [MCP_PORT],
    else 8001" *)
Definition port_by_precedence (args : Cli.Args)
    (environ : gmap string string) : option Z :=
  match Cli.port args with
  | Some p => Some p
  | None => int_literal (default "8001" (environ !! "MCP_PORT"))
  end.

(** "equal to [quit] under case-insensitive comparison": the same
    length, and at every position the same character or the same letter
    in the other case. *)
Definition is_letter (c : ascii) : bool :=
  let n := N_of_ascii c in
  (((65 <=? n) && (n <=? 90)) || ((97 <=? n) && (n <=? 122)))%N.

Definition same_letter (a b : ascii) : bool :=
  Ascii.eqb a b
  || (is_letter a && is_letter b
      && (N.lxor (N_of_ascii a) (N_of_ascii b) =? 32)%N).

Fixpoint equal_ignoring_case (s t : string) : bool :=
  match s, t with
  | EmptyString, EmptyString => true
  | String a s', String b t' => same_letter a b && equal_ignoring_case s' t'
  | _, _ => false
  end.

End Spec.

(** ** Concrete environments and inputs *)
Module Scenario.
Import Py Lib.

Definition w0 : World := mkWorld [] 0%nat.

Definition handshake_error : exn := Exn ExceptionC "handshake failed".
Definition closed_error : exn := Exn ExceptionC "session already closed".
Definition runtime_error : exn := Exn ExceptionC "model unavailable".

(** Every library call returns. *)
Definition lib_ok : list Event → Op → option exn := λ _ _, None.

(** The server does not answer [initialize]. *)
Definition lib_no_handshake : list Event → Op → option exn :=
  λ _ op,
    match op with
    | SessionInitialize _ => Some handshake_error
    | _ => None
    end.

(** The server does not answer [initialize], and a session refuses to be
    closed a second time. *)
Definition lib_no_handshake_strict_close : list Event → Op → option exn :=
  λ tr op,
    match op with
    | SessionInitialize _ => Some handshake_error
    | ClientSessionExit ctx =>
        if decide (attempts (ClientSessionExit ctx) tr = 0%nat) then None
        else Some closed_error
    | _ => None
    end.

(** A session refuses to be closed a second time. *)
Definition lib_strict_close : list Event → Op → option exn :=
  λ tr op,
    match op with
    | ClientSessionExit ctx =>
        if decide (attempts (ClientSessionExit ctx) tr = 0%nat) then None
        else Some closed_error
    | _ => None
    end.


Definition gradio_echo : list Event → string → GradioClient.Reply :=
  λ _ message, Return ("You said: " +:+ message).
Definition gradio_down : list Event → string → GradioClient.Reply :=
  λ _ _, Raise runtime_error.

Definition agno_echo : list Event → string → AgnoClient.Reply :=
  λ _ message, AgnoClient.mkReply ["You said: "; message] None.
Definition agno_down : list Event → string → AgnoClient.Reply :=
  λ _ _, AgnoClient.mkReply [] (Some runtime_error).

Definition adk_echo : list Event → string → AdkClient.Reply :=
  λ _ message,
    AdkClient.mkReply [AdkClient.mkEvent true (Some ["You said: "; message])]
                      None.
Definition adk_down : list Event → string → AdkClient.Reply :=
  λ _ _, AdkClient.mkReply [] (Some runtime_error).

Definition gradio_ok : Oracle GradioClient.Reply := mkOracle lib_ok gradio_echo.
Definition agno_ok : Oracle AgnoClient.Reply := mkOracle lib_ok agno_echo.
Definition adk_ok : Oracle AdkClient.Reply := mkOracle lib_ok adk_echo.

Definition gradio_no_handshake : Oracle GradioClient.Reply :=
  mkOracle lib_no_handshake gradio_echo.
Definition agno_no_handshake : Oracle AgnoClient.Reply :=
  mkOracle lib_no_handshake agno_echo.
Definition gradio_no_handshake_strict_close : Oracle GradioClient.Reply :=
  mkOracle lib_no_handshake_strict_close gradio_echo.
Definition gradio_strict_close : Oracle GradioClient.Reply :=
  mkOracle lib_strict_close gradio_echo.
Definition agno_strict_close : Oracle AgnoClient.Reply :=
  mkOracle lib_strict_close agno_echo.

Definition gradio_agent_down : Oracle GradioClient.Reply :=
  mkOracle lib_ok gradio_down.
Definition agno_agent_down : Oracle AgnoClient.Reply :=
  mkOracle lib_ok agno_down.
Definition adk_agent_down : Oracle AdkClient.Reply :=
  mkOracle lib_ok adk_down.


(** A terminal client after a successful connect: stream 0, session 1. *)
Definition agno_connected : AgnoClient.MCPClient :=
  AgnoClient.mkMCPClient (Some 1%nat) [] (Some 0%nat) (Some 1%nat).
Definition gradio_connected : GradioClient.MCPClient :=
  GradioClient.mkMCPClient (Some 1%nat) (Some 0%nat) (Some 1%nat).

(** The web assistant after a successful connect, and the store of the
    web framework holding one chat history of one exchange. *)
Definition assistant_connected : GradioClient.ZerodhaAssistant :=
  GradioClient.mkZerodhaAssistant
    (Some gradio_connected) (Some (GradioClient.agent_config 2%nat)) true.
Definition one_exchange : list (list string) :=
  [["hello"; "Hello! How can I help you today?"]].
Definition globals_connected : GradioClient.Globals :=
  GradioClient.mkGlobals assistant_connected [one_exchange].

Definition no_args : Cli.Args := Cli.mkArgs None None.
Definition empty_flags : Cli.Args := Cli.mkArgs (Some "") (Some 0).
Definition environ_example : gmap string string :=
  {[ "MCP_HOST" := "example.org"; "MCP_PORT" := "9000" ]}.

End Scenario.

(** ** Observations on runs *)
Module Obs.
Import Py Lib.

(** A computation that never rewrites the past: it leaves the trace it
    found as a prefix of the trace it leaves. *)
Definition grows {X A} (m : M (World * X) A) : Prop :=
  ∀ w x, ∃ evs, trace (m (w, x)).2.1 = trace w ++ evs.

(** The first library call of a run. *)
Definition first_call {X A} (m : M (World * X) A) (w : World) (x : X)
    (op : Op) : Prop :=
  ∃ err rest, trace (m (w, x)).2.1 = trace w ++ Call op err :: rest.

(** The calls of a connect that succeeds, on a world whose next object
    is [n]. *)
Definition connect_calls (n : handle) (url : string) : list Event :=
  [ Call (SseClientEnter n url) None;
    Call (ClientSessionNew n) None;
    Call (ClientSessionEnter (S n)) None;
    Call (SessionInitialize (S n)) None;
    Call (SessionListTools (S n)) None ].
Arguments connect_calls n%_nat url.

(** The second component of the pair that [chat_handler] appends. *)
Definition chat_response (env : Oracle GradioClient.Reply) (w : World)
    (a : GradioClient.ZerodhaAssistant) (message : string) : string :=
  if negb (GradioClient.connected a)
     || negb (bool_decide (is_Some (GradioClient.agent a)))
  then "Not connected to MCP server! Please connect first."
  else match runtime env (trace w) message with
       | Return content => content
       | Raise e => "Error: " +:+ exn_str e
       end.

(** The user asked to quit. *)
Definition quits (ev : Event) : bool :=
  match ev with
  | Ask (Return user_query) => bool_decide (lower user_query = "quit")
  | _ => false
  end.

(** What a loop has shown and read, and how it ended: either no answer
    asked to quit, or the last event is the one answer that did and the
    loop was left normally. *)
Definition dialogue (evs : list Event) (r : result unit) : Prop :=
  forallb (λ ev, negb (quits ev)) evs = true
  ∨ ∃ pre user_query,
      evs = pre ++ [Ask (Return user_query)]
      ∧ lower user_query = "quit"
      ∧ forallb (λ ev, negb (quits ev)) pre = true
      ∧ r = Return tt.

(** The prints of [print_chunks]. *)
Fixpoint chunk_prints (cs : list string) : list Event :=
  match cs with
  | [] => []
  | content :: rest =>
      if decide (content = "") then chunk_prints rest
      else Print content :: chunk_prints rest
  end.

(** [await exit_stack.aclose()] *)
Definition is_aclose (ev : Event) : bool :=
  match ev with
  | Call ExitStackAclose _ => true
  | _ => false
  end.

(** The requests the web page sends: the two buttons of the connection
    panel and the submission of a message. *)
Inductive Request :=
  | ConnectClick (host port : string)
  | DisconnectClick
  | ChatSubmit (message : string) (history : handle).

(** The state after a request has been handled, whatever it answered. *)
Definition serve (env : Oracle GradioClient.Reply) (s : World * GradioClient.Globals)
    (rq : Request) : World * GradioClient.Globals :=
  match rq with
  | ConnectClick host port => (GradioClient.connect_handler env host port s).2
  | DisconnectClick => (GradioClient.disconnect_handler env s).2
  | ChatSubmit message history =>
      (GradioClient.chat_handler env message history s).2
  end.

Definition serve_all (env : Oracle GradioClient.Reply)
    (s : World * GradioClient.Globals) (rqs : list Request)
    : World * GradioClient.Globals :=
  foldl (serve env) s rqs.

(** The assistant has an agent exactly when it is connected, and then it
    has a client that holds its session and both contexts. *)
Definition assistant_ok (a : GradioClient.ZerodhaAssistant) : Prop :=
  (GradioClient.connected a = true ↔ is_Some (GradioClient.agent a))
  ∧ (GradioClient.connected a = true →
     ∃ c session stream,
       GradioClient.client a = Some c
       ∧ GradioClient.session c = Some session
       ∧ GradioClient._session_context c = Some session
       ∧ GradioClient._streams_context c = Some stream).



(** A text of decimal digits only. *)
Fixpoint all_digits (s : string) : bool :=
  match s with
  | EmptyString => true
  | String c rest => bool_decide (is_Some (Ascii.is_nat c)) && all_digits rest
  end.

(** The welcome that [main] of the terminal client prints when its set-up
    is complete. *)
Definition agno_welcome : string :=
  "[info]Welcome to Zerodha! I'm here to assist you with managing your trading account, orders, portfolio, and positions. How can I help you today?[/info]".

(** The texts of an ADK event that count for the answer: those of the
    parts of a final response. *)
Definition final_texts (ev : AdkClient.adk_event) : list string :=
  if AdkClient.is_final_response ev then default [] (AdkClient.content ev)
  else [].

(** The concatenation of a list of texts. *)
Definition join (texts : list string) : string := foldr String.app "" texts.


End Obs.

(** * Properties *)

Import Py Lib Obs.

(** ** Host, port and URL resolution *)

Lemma mcp_host_flag args environ h :
  Cli.host args = Some h → h ≠ "" → Cli.mcp_host args environ = h.
Proof.
  intros Hh Hne. unfold Cli.mcp_host, truthy_str. rewrite Hh.
  destruct (decide (h = "")); congruence.
Qed.

Lemma mcp_host_no_flag args environ :
  Cli.host args = None ∨ Cli.host args = Some "" →
  Cli.mcp_host args environ = default "localhost" (environ !! "MCP_HOST").
Proof.
  intros [Hh | Hh]; unfold Cli.mcp_host, truthy_str; rewrite Hh; reflexivity.
Qed.

Lemma mcp_port_flag {X} args environ p (s : X) :
  Cli.port args = Some p → p ≠ 0 →
  Cli.mcp_port args environ s = (Return p, s).
Proof.
  intros Hp Hne. unfold Cli.mcp_port, truthy_int. rewrite Hp.
  destruct (decide (p = 0)); [congruence | reflexivity].
Qed.

Lemma mcp_port_no_flag {X} args environ (s : X) :
  Cli.port args = None ∨ Cli.port args = Some 0 →
  Cli.mcp_port args environ s
  = py_int (default "8001" (environ !! "MCP_PORT")) s.
Proof.
  intros [Hp | Hp]; unfold Cli.mcp_port, truthy_int; rewrite Hp; reflexivity.
Qed.

(** ** Traces only grow *)

Lemma extend_nil w : extend w [] = w.
Proof. destruct w. unfold extend. simpl. by rewrite app_nil_r. Qed.

Lemma extend_extend w evs1 evs2 :
  extend (extend w evs1) evs2 = extend w (evs1 ++ evs2).
Proof. unfold extend. simpl. by rewrite app_assoc. Qed.

Lemma grows_ret {X A} (a : A) : grows (X:=X) (ret a).
Proof. intros w x. exists []. simpl. by rewrite app_nil_r. Qed.

Lemma grows_raise {X A} e : grows (X:=X) (A:=A) (raise e).
Proof. intros w x. exists []. simpl. by rewrite app_nil_r. Qed.

Lemma grows_bind {X A B} (m : M (World * X) A) (k : A → M (World * X) B) :
  grows m → (∀ a, grows (k a)) → grows (bind m k).
Proof.
  intros Hm Hk w x. unfold bind. destruct (Hm w x) as [evs1 H1].
  destruct (m (w, x)) as [[a | e] [w1 x1]]; simpl in *.
  - destruct (Hk a w1 x1) as [evs2 H2]. exists (evs1 ++ evs2).
    rewrite H2, H1. by rewrite app_assoc.
  - by exists evs1.
Qed.

Lemma grows_try_except {X A} catches (m : M (World * X) A) h :
  grows m → (∀ e, grows (h e)) → grows (try_except catches m h).
Proof.
  intros Hm Hh w x. unfold try_except. destruct (Hm w x) as [evs1 H1].
  destruct (m (w, x)) as [[a | e] [w1 x1]]; simpl in *.
  - by exists evs1.
  - destruct (catches e); [| by exists evs1].
    destruct (Hh e w1 x1) as [evs2 H2]. exists (evs1 ++ evs2).
    rewrite H2, H1. by rewrite app_assoc.
Qed.

Lemma grows_try_finally {X A} (m : M (World * X) A) fin :
  grows m → grows fin → grows (try_finally m fin).
Proof.
  intros Hm Hf w x. unfold try_finally. destruct (Hm w x) as [evs1 H1].
  destruct (m (w, x)) as [r [w1 x1]]; simpl in *.
  destruct (Hf w1 x1) as [evs2 H2].
  destruct (fin (w1, x1)) as [[[] | e] [w2 x2]]; simpl in *;
    exists (evs1 ++ evs2); rewrite H2, H1; by rewrite app_assoc.
Qed.

Lemma grows_call {R X} (env : Oracle R) op : grows (X:=X) (call env op).
Proof.
  intros w x. unfold call. destruct (lib env (trace w) op); simpl; eauto.
Qed.

Lemma grows_call_new {R X} (env : Oracle R) op : grows (X:=X) (call_new env op).
Proof.
  intros w x. unfold call_new. destruct (lib env (trace w) op); simpl; eauto.
Qed.

Lemma grows_new_object {X} : grows (X:=X) new_object.
Proof. intros w x. exists []. simpl. by rewrite app_nil_r. Qed.

Lemma grows_print {X} text : grows (X:=X) (print text).
Proof. intros w x. simpl. eauto. Qed.

Lemma grows_logger_error {X} text : grows (X:=X) (logger_error text).
Proof. intros w x. simpl. eauto. Qed.

Lemma grows_logger_debug {X} text : grows (X:=X) (logger_debug text).
Proof. apply grows_ret. Qed.

Lemma grows_prompt_ask {X} stdin : grows (X:=X) (prompt_ask stdin).
Proof. intros w x. simpl. eauto. Qed.

(** A step that touches the program's own state only. *)
Lemma grows_local {X A} (m : M (World * X) A) :
  (∀ w x, (m (w, x)).2.1 = w) → grows m.
Proof. intros H w x. exists []. rewrite H. by rewrite app_nil_r. Qed.

Lemma grows_py_int {X} s : grows (X:=X) (py_int s).
Proof. unfold py_int. destruct (int_literal s); [apply grows_ret | apply grows_raise]. Qed.

Create HintDb grows discriminated.
#[local] Hint Resolve grows_ret grows_raise grows_call grows_call_new
  grows_new_object grows_print grows_logger_error grows_logger_debug
  grows_prompt_ask grows_py_int : grows.

(** Decompose a program into its steps. *)
Ltac grows_step :=
  first
    [ solve [eauto with grows]
    | apply grows_bind; [| intros ?]
    | apply grows_try_except; [| intros ?]
    | apply grows_try_finally
    | solve [apply grows_local; intros [] []; reflexivity]
    | match goal with
      | |- grows (match ?o with _ => _ end) => destruct o
      | |- grows (if ?b then _ else _) => destruct b
      end ].
Ltac grows_steps := repeat grows_step.

Section AgnoGrows.
Context (env : Oracle AgnoClient.Reply).

Lemma agno_getattr_grows o attr :
  grows (X:=AgnoClient.MCPClient) (AgnoClient.getattr o attr).
Proof. unfold AgnoClient.getattr. grows_steps. Qed.

Lemma agno_deref_grows o attr :
  grows (X:=AgnoClient.MCPClient) (AgnoClient.deref o attr).
Proof. unfold AgnoClient.deref. grows_steps. Qed.

Hint Resolve agno_getattr_grows agno_deref_grows : grows.

Lemma agno_connect_grows url : grows (AgnoClient.connect_to_sse_server env url).
Proof.
  unfold AgnoClient.connect_to_sse_server, AgnoClient.self,
    AgnoClient.set_session, AgnoClient.set_streams_context,
    AgnoClient.set_session_context, modify.
  grows_steps.
Qed.

Lemma agno_cleanup_grows : grows (AgnoClient.cleanup env).
Proof. unfold AgnoClient.cleanup, AgnoClient.self. grows_steps. Qed.

Lemma agno_print_chunks_grows cs : grows (AgnoClient.print_chunks cs).
Proof. induction cs as [| content rest IH]; simpl; grows_steps. Qed.

Lemma agno_agent_arun_grows q : grows (AgnoClient.agent_arun env q).
Proof.
  intros w c. unfold AgnoClient.agent_arun.
  set (reply := runtime env (trace w) q).
  assert (Hg : grows (AgnoClient.print_chunks (AgnoClient.chunks reply);;
                      match AgnoClient.failure reply with
                      | Some e => raise e
                      | None => ret tt
                      end)).
  { pose proof (agno_print_chunks_grows (AgnoClient.chunks reply)). grows_steps. }
  destruct (Hg (extend w [Call (AgentRun q true) (AgnoClient.failure reply)]) c)
    as [evs Hevs].
  eexists. rewrite Hevs. simpl. by rewrite <- app_assoc.
Qed.

Hint Resolve agno_connect_grows agno_cleanup_grows agno_agent_arun_grows : grows.

Lemma agno_turn_grows stdin continue :
  grows continue → grows (AgnoClient.turn env stdin continue).
Proof. intros Hc. unfold AgnoClient.turn. grows_steps. Qed.

Lemma agno_loop_grows stdin : grows (AgnoClient.loop env stdin).
Proof.
  induction stdin as [| line rest IH]; simpl; apply agno_turn_grows;
    [apply grows_ret | exact IH].
Qed.

Lemma agno_session_grows stdin : grows (AgnoClient.interactive_session env stdin).
Proof.
  pose proof (agno_loop_grows stdin).
  unfold AgnoClient.interactive_session, AgnoClient.disconnect.
  grows_steps.
Qed.
End AgnoGrows.

Section AdkGrows.
Context (env : Oracle AdkClient.Reply).

Lemma adk_run_async_grows q : grows (AdkClient.run_async env q).
Proof. intros w []. unfold AdkClient.run_async. simpl. eauto. Qed.

Lemma adk_aclose_grows : grows AdkClient.exit_stack_aclose.
Proof. intros w []. simpl. eauto. Qed.

Hint Resolve adk_run_async_grows adk_aclose_grows : grows.

Lemma adk_turn_grows stdin continue :
  grows continue → grows (AdkClient.turn env stdin continue).
Proof. intros Hc. unfold AdkClient.turn. grows_steps. Qed.

Lemma adk_loop_grows stdin : grows (AdkClient.loop env stdin).
Proof.
  induction stdin as [| line rest IH]; simpl; apply adk_turn_grows;
    [apply grows_ret | exact IH].
Qed.

Lemma adk_session_grows url stdin :
  grows (AdkClient.interactive_session env url stdin).
Proof.
  pose proof (adk_loop_grows stdin).
  unfold AdkClient.interactive_session, AdkClient.setup_and_loop.
  grows_steps.
Qed.
End AdkGrows.

Lemma events_since_app w w' evs :
  trace w' = trace w ++ evs → events_since w w' = evs.
Proof. intros H. unfold events_since. rewrite H. by rewrite drop_app_length. Qed.

Lemma first_call_call {R X} (env : Oracle R) op w (x : X) :
  first_call (call env op) w x op.
Proof.
  unfold first_call, call. destruct (lib env (trace w) op); simpl; eauto.
Qed.

Lemma first_call_call_new {R X} (env : Oracle R) op w (x : X) :
  first_call (call_new env op) w x op.
Proof.
  unfold first_call, call_new. destruct (lib env (trace w) op); simpl; eauto.
Qed.

(** The first call of [m ; k] is the first call of [m] ... *)
Lemma first_call_bind_l {X A B} (m : M (World * X) A) (k : A → M (World * X) B)
    w x op :
  first_call m w x op → (∀ a, grows (k a)) → first_call (bind m k) w x op.
Proof.
  intros (err & rest & Hm) Hk. unfold first_call, bind.
  destruct (m (w, x)) as [[a | e] [w1 x1]]; simpl in *.
  - destruct (Hk a w1 x1) as [evs Hevs].
    exists err, (rest ++ evs). rewrite Hevs, Hm, <- app_assoc. reflexivity.
  - eauto.
Qed.

(** ... unless [m] returns silently: then it is the first call of [k]. *)
Lemma first_call_bind_r {X A B} (m : M (World * X) A) (k : A → M (World * X) B)
    w x op a w' x' :
  m (w, x) = (Return a, (w', x')) → trace w' = trace w →
  first_call (k a) w' x' op → first_call (bind m k) w x op.
Proof.
  intros Hm Htr (err & rest & Hk). unfold first_call, bind. rewrite Hm.
  exists err, rest. by rewrite <- Htr.
Qed.

Lemma mcp_port_state {X} args environ (s : X) :
  (Cli.mcp_port args environ s).2 = s.
Proof.
  unfold Cli.mcp_port, py_int.
  destruct (truthy_int (Cli.port args)); [reflexivity |].
  destruct (int_literal _); reflexivity.
Qed.

Lemma mcp_url_returns {X} args environ p (s : X) :
  (Cli.mcp_port args environ s).1 = Return p →
  Cli.mcp_url args environ s
  = (Return (Cli.sse_url (Cli.mcp_host args environ) p), s).
Proof.
  intros Hp. pose proof (mcp_port_state args environ s) as Hs.
  unfold Cli.mcp_url, bind.
  destruct (Cli.mcp_port args environ s) as [r s']. simpl in *. by subst.
Qed.

Lemma agno_connect_first_call env url w c :
  first_call (AgnoClient.connect_to_sse_server env url) w c
             (SseClientEnter (next_id w) url).
Proof.
  unfold AgnoClient.connect_to_sse_server.
  do 4 (eapply first_call_bind_r; [reflexivity | reflexivity |]).
  eapply first_call_bind_l; [apply first_call_call |].
  intros _. pose proof agno_getattr_grows. pose proof agno_deref_grows.
  unfold AgnoClient.self, AgnoClient.set_session,
    AgnoClient.set_session_context, modify.
  grows_steps.
Qed.

Lemma agno_main_first_call env args environ stdin w c p :
  (Cli.mcp_port args environ (w, c)).1 = Return p →
  first_call (AgnoClient.main env args environ stdin) w c
    (SseClientEnter (next_id w) (Cli.sse_url (Cli.mcp_host args environ) p)).
Proof.
  intros Hp. unfold AgnoClient.main.
  eapply first_call_bind_r; [by apply mcp_url_returns | reflexivity |].
  eapply first_call_bind_r; [reflexivity | reflexivity |].
  eapply first_call_bind_l; [apply agno_connect_first_call |].
  intros _. pose proof (agno_session_grows env stdin).
  pose proof agno_deref_grows. unfold AgnoClient.self. grows_steps.
Qed.

Lemma adk_main_first_call env args environ stdin w p :
  (Cli.mcp_port args environ (w, tt)).1 = Return p →
  first_call (AdkClient.main env args environ stdin) w tt
    (McpToolsetNew (Cli.sse_url (Cli.mcp_host args environ) p)).
Proof.
  intros Hp. unfold AdkClient.main.
  eapply first_call_bind_r; [by apply mcp_url_returns | reflexivity |].
  unfold AdkClient.interactive_session.
  destruct (first_call_call_new env
              (McpToolsetNew (Cli.sse_url (Cli.mcp_host args environ) p)) w tt)
    as (err & rest & Hc).
  pose proof (adk_loop_grows env stdin) as Hl.
  assert (Hs : first_call
                 (AdkClient.setup_and_loop env
                    (Cli.sse_url (Cli.mcp_host args environ) p) stdin)
                 w tt
                 (McpToolsetNew (Cli.sse_url (Cli.mcp_host args environ) p))).
  { unfold AdkClient.setup_and_loop.
    eapply first_call_bind_r; [reflexivity | reflexivity |].
    eapply first_call_bind_l; [apply first_call_call_new |].
    intros ?. grows_steps. }
  destruct Hs as (err' & rest' & Hs).
  set (body := try_except _ _ _).
  assert (Hb : ∃ rest2, trace (body (w, tt)).2.1
                 = trace w ++ Call (McpToolsetNew (Cli.sse_url (Cli.mcp_host args environ) p)) err' :: rest2).
  { unfold body, try_except.
    destruct (AdkClient.setup_and_loop env _ stdin (w, tt)) as [[a | e] [w1 x1]];
      simpl in *; [eauto |].
    destruct (is_Exception e); simpl; [| eauto].
    rewrite Hs, <- app_assoc. simpl. eauto. }
  destruct Hb as [rest2 Hb].
  unfold first_call, try_finally.
  destruct (body (w, tt)) as [r [w1 x1]]. simpl in Hb.
  set (fin := (AdkClient.exit_stack_aclose;; _)%py).
  assert (Hf : grows fin) by (unfold fin; pose proof adk_aclose_grows; grows_steps).
  destruct (Hf w1 x1) as [evs Hevs].
  destruct (fin (w1, x1)) as [[[] | e] [w2 x2]]; simpl in *;
    rewrite Hevs, Hb, <- app_assoc; simpl; eauto.
Qed.

(** C8, as the code has it.  In both terminal clients the host is the
    [--host] flag when it is given and not empty, else [MCP_HOST], else
    [localhost]; the port is the [--port] flag when it is given and not
    zero, else the integer that [MCP_PORT] spells, else 8001; and the first
    library call of [main] goes to [http://<host>:<port>/sse]: the SSE
    stream of the agno client, the toolset of the ADK client. *)
Theorem endpoint_resolution (args : Cli.Args) (environ : gmap string string) :
  (∀ h, Cli.host args = Some h → h ≠ "" → Cli.mcp_host args environ = h) ∧
  (Cli.host args = None ∨ Cli.host args = Some "" →
   Cli.mcp_host args environ = default "localhost" (environ !! "MCP_HOST")) ∧
  (∀ X (s : X) p, Cli.port args = Some p → p ≠ 0 →
   Cli.mcp_port args environ s = (Return p, s)) ∧
  (∀ X (s : X), Cli.port args = None ∨ Cli.port args = Some 0 →
   Cli.mcp_port args environ s
   = py_int (default "8001" (environ !! "MCP_PORT")) s) ∧
  int_literal "8001" = Some 8001 ∧
  (∀ env stdin w c p,
     (Cli.mcp_port args environ (w, c)).1 = Return p →
     first_call (AgnoClient.main env args environ stdin) w c
       (SseClientEnter (next_id w)
          ("http://" +:+ Cli.mcp_host args environ +:+ ":" +:+ str_int p
           +:+ "/sse"))) ∧
  (∀ env stdin w p,
     (Cli.mcp_port args environ (w, tt)).1 = Return p →
     first_call (AdkClient.main env args environ stdin) w tt
       (McpToolsetNew
          ("http://" +:+ Cli.mcp_host args environ +:+ ":" +:+ str_int p
           +:+ "/sse"))).
Proof.
  repeat split.
  - intros h. apply mcp_host_flag.
  - apply mcp_host_no_flag.
  - intros X s p. apply mcp_port_flag.
  - intros X s. apply mcp_port_no_flag.
  - intros env stdin w c p. apply agno_main_first_call.
  - intros env stdin w p. apply adk_main_first_call.
Qed.

Lemma endpoint_resolution_witness :
  Cli.mcp_host (Cli.mkArgs (Some "10.0.0.7") None) Scenario.environ_example
  = "10.0.0.7"
  ∧ first_call
      (AgnoClient.main Scenario.agno_ok
         (Cli.mkArgs (Some "10.0.0.7") None) Scenario.environ_example [])
      Scenario.w0 AgnoClient.MCPClient_init
      (SseClientEnter 0%nat "http://10.0.0.7:9000/sse").
Proof.
  destruct (endpoint_resolution (Cli.mkArgs (Some "10.0.0.7") None)
              Scenario.environ_example) as (Hh & _ & _ & _ & _ & Hagno & _).
  split.
  - apply Hh; [reflexivity | discriminate].
  - apply (Hagno Scenario.agno_ok [] Scenario.w0 AgnoClient.MCPClient_init 9000).
    vm_compute. reflexivity.
Defined.

(** C8 as the specification words it fails on flags that are given but
    falsy: with [--host ""] and [--port 0] the code falls through to the
    environment, while precedence of the flags would keep them. *)
Lemma empty_flags_fall_through :
  Cli.host Scenario.empty_flags = Some ""
  ∧ Cli.port Scenario.empty_flags = Some 0
  ∧ Cli.mcp_host Scenario.empty_flags Scenario.environ_example = "example.org"
  ∧ Spec.host_by_precedence Scenario.empty_flags Scenario.environ_example = ""
  ∧ Cli.mcp_port Scenario.empty_flags Scenario.environ_example tt
    = (Return 9000, tt)
  ∧ Spec.port_by_precedence Scenario.empty_flags Scenario.environ_example
    = Some 0
  ∧ ¬ (∀ args environ h,
         Cli.host args = Some h → Cli.mcp_host args environ = h).
Proof.
  repeat split; try (vm_compute; reflexivity).
  intros H.
  specialize (H Scenario.empty_flags Scenario.environ_example "" eq_refl).
  vm_compute in H. discriminate.
Qed.

(** ** Connecting and cleaning up *)

(** Case analysis on the answers of the environment, in a hypothesis and
    in the goal. *)
Ltac oracle_cases_in H :=
  cbn in H;
  repeat match type of H with
         | context [lib ?env ?tr ?op] =>
             let E := fresh "Hlib" in
             destruct (lib env tr op) eqn:E; cbn in H
         | context [is_Exception ?e] =>
             let E := fresh "Hexc" in
             destruct (is_Exception e) eqn:E; cbn in H
         end.

Ltac oracle_cases :=
  cbn;
  repeat match goal with
         | |- context [lib ?env ?tr ?op] =>
             let E := fresh "Hlib" in
             destruct (lib env tr op) eqn:E; cbn
         | |- context [is_Exception ?e] =>
             let E := fresh "Hexc" in
             destruct (is_Exception e) eqn:E; cbn
         end.

(** Case analysis on membership in an explicit list of events. *)
Ltac elem_cases H :=
  repeat first
    [ apply elem_of_nil in H; destruct H
    | apply elem_of_cons in H; destruct H as [H | H]; [try discriminate H |] ].

Lemma gradio_connect_calls env url w c r s' :
  GradioClient.connect_to_sse_server env url (w, c) = (Return r, s') →
  events_since w s'.1 = connect_calls (next_id w) url.
Proof.
  intros H.
  unfold GradioClient.connect_to_sse_server, GradioClient.cleanup,
    try_except, bind in H.
  oracle_cases_in H; try discriminate;
    try (destruct (GradioClient._session_context c); oracle_cases_in H;
         discriminate).
  inversion H; subst; simpl.
  apply events_since_app. simpl. rewrite <- !app_assoc. reflexivity.
Qed.

Lemma agno_connect_calls env url w c r s' :
  AgnoClient.connect_to_sse_server env url (w, c) = (Return r, s') →
  events_since w s'.1 = connect_calls (next_id w) url.
Proof.
  intros H.
  unfold AgnoClient.connect_to_sse_server, bind in H.
  oracle_cases_in H; try discriminate.
  inversion H; subst; simpl.
  apply events_since_app. simpl. rewrite <- !app_assoc. reflexivity.
Qed.

(** After a connect that succeeded the terminal client holds the stream
    and the session it has entered. *)
Lemma agno_connect_holds_contexts env url w c r s' :
  AgnoClient.connect_to_sse_server env url (w, c) = (Return r, s') →
  AgnoClient._streams_context s'.2 = Some (next_id w)
  ∧ AgnoClient._session_context s'.2 = Some (S (next_id w))
  ∧ AgnoClient.session s'.2 = Some (S (next_id w)).
Proof.
  intros H.
  unfold AgnoClient.connect_to_sse_server, bind in H.
  oracle_cases_in H; try discriminate.
  inversion H; subst; simpl. done.
Qed.

(** C5.  A connect that succeeds has made exactly five library calls, in
    this order: the SSE stream is entered, the session is built over its
    streams and entered, [initialize] is called, and [list_tools] is
    called once; both [MCPClient] classes agree. *)
Theorem connect_steps_in_order (url : string) (w : World) :
  (∀ env c r s',
     GradioClient.connect_to_sse_server env url (w, c) = (Return r, s') →
     events_since w s'.1 = connect_calls (next_id w) url) ∧
  (∀ env c r s',
     AgnoClient.connect_to_sse_server env url (w, c) = (Return r, s') →
     events_since w s'.1 = connect_calls (next_id w) url).
Proof.
  split; intros env c r s'.
  - apply gradio_connect_calls.
  - apply agno_connect_calls.
Qed.

Lemma connect_steps_in_order_witness :
  events_since Scenario.w0
    (GradioClient.connect_to_sse_server
       Scenario.gradio_ok "http://localhost:8001/sse"
       (Scenario.w0, GradioClient.MCPClient_init)).2.1
  = connect_calls 0%nat "http://localhost:8001/sse"
  ∧ events_since Scenario.w0
      (AgnoClient.connect_to_sse_server
         Scenario.agno_ok "http://localhost:8001/sse"
         (Scenario.w0, AgnoClient.MCPClient_init)).2.1
    = connect_calls 0%nat "http://localhost:8001/sse".
Proof.
  destruct (connect_steps_in_order "http://localhost:8001/sse" Scenario.w0)
    as [Hgradio Hagno].
  split.
  - apply (Hgradio Scenario.gradio_ok GradioClient.MCPClient_init true).
    reflexivity.
  - apply (Hagno Scenario.agno_ok AgnoClient.MCPClient_init tt).
    reflexivity.
Defined.





(** Neither cleanup forgets the contexts it has closed: the client holds
    them afterwards as before. *)
Lemma gradio_cleanup_keeps_contexts env w c :
  let c' := (GradioClient.cleanup env (w, c)).2.2 in
  GradioClient._session_context c' = GradioClient._session_context c
  ∧ GradioClient._streams_context c' = GradioClient._streams_context c.
Proof.
  unfold GradioClient.cleanup, bind.
  destruct c as [s [hc |] [hs |]]; oracle_cases; split; reflexivity.
Qed.

Lemma agno_cleanup_keeps_client env w c :
  (AgnoClient.cleanup env (w, c)).2.2 = c.
Proof.
  unfold AgnoClient.cleanup, bind.
  destruct c as [s st [hc |] [hs |]]; oracle_cases; reflexivity.
Qed.

(** The connect of the terminal client never closes anything. *)
Lemma agno_connect_never_closes env url w c :
  forallb (λ ev, negb (is_close ev))
    (events_since w (AgnoClient.connect_to_sse_server env url (w, c)).2.1)
  = true.
Proof.
  unfold AgnoClient.connect_to_sse_server, bind.
  oracle_cases;
    (erewrite events_since_app;
     [| simpl; rewrite <- ?app_assoc; simpl; reflexivity]);
    reflexivity.
Qed.

(** The connect of the web client, on a new client object: when it fails
    after the stream was entered, and closing the session does not itself
    raise, the stream is closed once. *)
Lemma gradio_failed_connect_closes_stream env url w e s' :
  GradioClient.connect_to_sse_server env url (w, GradioClient.MCPClient_init)
  = (Raise e, s') →
  Call (SseClientEnter (next_id w) url) None ∈ events_since w s'.1 →
  (∀ ctx err, Call (ClientSessionExit ctx) (Some err) ∉ events_since w s'.1) →
  is_Exception e = true →
  attempts (SseClientExit (next_id w)) (events_since w s'.1) = 1%nat.
Proof.
  intros H Hin Hclose Hexc.
  unfold GradioClient.connect_to_sse_server, GradioClient.cleanup,
    try_except, bind in H.
  oracle_cases_in H; inversion H; subst; clear H;
    (erewrite events_since_app in *;
     [| simpl; rewrite <- ?app_assoc; simpl; reflexivity ..]);
    try (exfalso; eapply Hclose; solve [eauto 8 using list_elem_of_here, list_elem_of_further]);
    try (exfalso; elem_cases Hin; congruence);
    try congruence;
    unfold attempts; simpl;
    rewrite ?bool_decide_eq_true_2 by reflexivity; reflexivity.
Qed.

Lemma gradio_failed_connect_closes_stream_example :
  attempts (SseClientExit 0)
    (events_since Scenario.w0
       (GradioClient.connect_to_sse_server Scenario.gradio_no_handshake
          "http://localhost:8001/sse"
          (Scenario.w0, GradioClient.MCPClient_init)).2.1)
  = 1%nat.
Proof.
  eapply (gradio_failed_connect_closes_stream Scenario.gradio_no_handshake
            "http://localhost:8001/sse" Scenario.w0 Scenario.handshake_error).
  - reflexivity.
  - vm_compute. apply list_elem_of_here.
  - intros ctx err Hin. vm_compute in Hin. elem_cases Hin.
  - reflexivity.
Defined.

(** C1 fails in [agno_client.py].  When the server does not answer
    [initialize], [connect_to_sse_server] raises with the stream and the
    session entered and neither closed, and [main], which connects before
    its [try], ends in the same state whatever the user would have typed:
    the stream of the failed attempt is never closed. *)
Theorem agno_failed_connect_leaks_stream (stdin : list (result string)) :
  let url := "http://localhost:8001/sse" in
  let run := AgnoClient.connect_to_sse_server Scenario.agno_no_handshake url
               (Scenario.w0, AgnoClient.MCPClient_init) in
  run.1 = Raise Scenario.handshake_error
  ∧ trace run.2.1
    = [ Call (SseClientEnter 0 url) None;
        Call (ClientSessionNew 0) None;
        Call (ClientSessionEnter 1) None;
        Call (SessionInitialize 1) (Some Scenario.handshake_error) ]
  ∧ attempts (SseClientExit 0) (trace run.2.1) = 0%nat
  ∧ attempts (ClientSessionExit 1) (trace run.2.1) = 0%nat
  ∧ AgnoClient.main Scenario.agno_no_handshake Scenario.no_args ∅ stdin
      (Scenario.w0, AgnoClient.MCPClient_init)
    = run.
Proof. repeat split; vm_compute; reflexivity. Qed.

(** The assistant of the web client does guard its own [disconnect]: once
    it is not connected, [disconnect] answers at once and calls nothing. *)
Lemma assistant_disconnect_guarded env w a :
  GradioClient.connected a = false →
  GradioClient.assistant_disconnect env (w, a) = (Return "Not connected!", (w, a)).
Proof.
  intros Hc. unfold GradioClient.assistant_disconnect, GradioClient.this, bind.
  simpl. rewrite Hc. reflexivity.
Qed.

Example assistant_disconnect_twice :
  let s1 := (GradioClient.assistant_disconnect Scenario.gradio_strict_close
               (Scenario.w0, Scenario.assistant_connected)).2 in
  s1.2 = GradioClient.ZerodhaAssistant_init
  ∧ GradioClient.assistant_disconnect Scenario.gradio_strict_close s1
    = (Return "Not connected!", s1).
Proof. split; vm_compute; reflexivity. Qed.

(** C3 fails in both [MCPClient] classes.  After a connect that
    succeeded and a first [disconnect], a second [disconnect] calls
    [__aexit__] on the session and on the stream again; when the session
    refuses to be closed twice, the second [disconnect] raises. *)
Theorem disconnect_twice_closes_twice :
  let url := "http://localhost:8001/sse" in
  (let s1 := (GradioClient.connect_to_sse_server Scenario.gradio_ok url
                (Scenario.w0, GradioClient.MCPClient_init)).2 in
   let s2 := (GradioClient.disconnect Scenario.gradio_ok s1).2 in
   let s3 := (GradioClient.disconnect Scenario.gradio_ok s2).2 in
   events_since s1.1 s2.1
   = [Call (ClientSessionExit 1) None; Call (SseClientExit 0) None]
   ∧ events_since s2.1 s3.1
     = [Call (ClientSessionExit 1) None; Call (SseClientExit 0) None]
   ∧ attempts (SseClientExit 0) (trace s3.1) = 2%nat)
  ∧ (let s1 := (GradioClient.connect_to_sse_server Scenario.gradio_strict_close
                  url (Scenario.w0, GradioClient.MCPClient_init)).2 in
     let r2 := GradioClient.disconnect Scenario.gradio_strict_close s1 in
     let r3 := GradioClient.disconnect Scenario.gradio_strict_close r2.2 in
     r2.1 = Return tt
     ∧ r3.1 = Raise Scenario.closed_error
     ∧ events_since r2.2.1 r3.2.1
       = [Call (ClientSessionExit 1) (Some Scenario.closed_error)])
  ∧ (let s1 := (AgnoClient.connect_to_sse_server Scenario.agno_ok url
                  (Scenario.w0, AgnoClient.MCPClient_init)).2 in
     let s2 := (AgnoClient.disconnect Scenario.agno_ok s1).2 in
     let s3 := (AgnoClient.disconnect Scenario.agno_ok s2).2 in
     events_since s2.1 s3.1
     = [Call (ClientSessionExit 1) None; Call (SseClientExit 0) None]
     ∧ attempts (SseClientExit 0) (trace s3.1) = 2%nat)
  ∧ (let s1 := (AgnoClient.connect_to_sse_server Scenario.agno_strict_close
                  url (Scenario.w0, AgnoClient.MCPClient_init)).2 in
     let r2 := AgnoClient.disconnect Scenario.agno_strict_close s1 in
     let r3 := AgnoClient.disconnect Scenario.agno_strict_close r2.2 in
     r2.1 = Return tt ∧ r3.1 = Raise Scenario.closed_error).
Proof. repeat split; vm_compute; reflexivity. Qed.

(** ** The web client: chat history *)

(** [list_add] on a list object that exists: the sum is a new object, and
    every list that existed is what it was. *)
Lemma list_add_spec history pair w g entries :
  GradioClient.lists g !! history = Some entries →
  ∃ g',
    GradioClient.list_add history pair (w, g)
    = (Return (length (GradioClient.lists g)), (w, g'))
    ∧ GradioClient.assistant g' = GradioClient.assistant g
    ∧ GradioClient.lists g' !! length (GradioClient.lists g)
      = Some (entries ++ [pair])
    ∧ (∀ h other, GradioClient.lists g !! h = Some other →
                  GradioClient.lists g' !! h = Some other).
Proof.
  intros Hh. unfold GradioClient.list_add. rewrite Hh.
  eexists. split; [reflexivity |]. simpl. split; [reflexivity |]. split.
  - rewrite lookup_app_r by lia. by rewrite Nat.sub_diag.
  - intros h other Hother. by apply lookup_app_l_Some.
Qed.

#[local] Arguments GradioClient.list_add : simpl never.

(** C10.  For every message and every history, [chat_handler] returns a
    new list that is the history followed by the one pair
    [[message, response]], where the response is the notice that the
    assistant is not connected, the content of the agent's answer, or
    ["Error: "] followed by the text of the exception the agent raised; the
    list object it was given, and every other list, is left as it was. *)
Theorem chat_handler_appends_one_pair env message history w g entries :
  GradioClient.lists g !! history = Some entries →
  (∀ e, runtime env (trace w) message = Raise e → is_Exception e = true) →
  ∃ result s',
    GradioClient.chat_handler env message history (w, g) = (Return result, s')
    ∧ GradioClient.lists s'.2 !! result
      = Some (entries ++ [[message; chat_response env w (GradioClient.assistant g) message]])
    ∧ result ≠ history
    ∧ GradioClient.lists s'.2 !! history = Some entries
    ∧ (∀ h other, GradioClient.lists g !! h = Some other →
                  GradioClient.lists s'.2 !! h = Some other)
    ∧ GradioClient.assistant s'.2 = GradioClient.assistant g.
Proof.
  intros Hh Hexc.
  assert (Hne : length (GradioClient.lists g) ≠ history).
  { apply lookup_lt_Some in Hh. lia. }
  unfold GradioClient.chat_handler, chat_response, bind, try_except.
  destruct g as [a ls]. simpl in *.
  destruct (negb (GradioClient.connected a)
            || negb (bool_decide (is_Some (GradioClient.agent a)))).
  - destruct (list_add_spec history
                [message; "Not connected to MCP server! Please connect first."]
                w (GradioClient.mkGlobals a ls) entries Hh)
      as (g' & -> & Ha & Hnew & Hold).
    exists (length ls), (w, g'). simpl in *. eauto 10.
  - unfold GradioClient.agent_arun, GradioClient.on_assistant,
      GradioClient.Reply in *.
    destruct (runtime env (trace w) message) as [content | e] eqn:Hagent; cbn.
    + destruct (list_add_spec history [message; content]
                  (extend w [Call (AgentRun message false) None])
                  (GradioClient.mkGlobals a ls) entries Hh)
        as (g' & -> & Ha & Hnew & Hold).
      eexists _, (_, g'). simpl in *. eauto 10.
    + rewrite (Hexc e eq_refl).
      destruct (list_add_spec history [message; "Error: " +:+ exn_str e]
                  (extend w [Call (AgentRun message false) (Some e)])
                  (GradioClient.mkGlobals a ls) entries Hh)
        as (g' & -> & Ha & Hnew & Hold).
      eexists _, (_, g'). simpl in *. eauto 10.
Qed.

Lemma chat_handler_appends_one_pair_witness :
  ∃ result s',
    GradioClient.chat_handler Scenario.gradio_agent_down "margins?" 0%nat
      (Scenario.w0, Scenario.globals_connected) = (Return result, s')
    ∧ GradioClient.lists s'.2 !! result
      = Some (Scenario.one_exchange
              ++ [["margins?";
                   chat_response Scenario.gradio_agent_down Scenario.w0
                     (GradioClient.assistant Scenario.globals_connected)
                     "margins?"]])
    ∧ result ≠ 0%nat
    ∧ GradioClient.lists s'.2 !! 0%nat = Some Scenario.one_exchange
    ∧ (∀ h other,
         GradioClient.lists Scenario.globals_connected !! h = Some other →
         GradioClient.lists s'.2 !! h = Some other)
    ∧ GradioClient.assistant s'.2
      = GradioClient.assistant Scenario.globals_connected.
Proof.
  apply (chat_handler_appends_one_pair Scenario.gradio_agent_down
           "margins?" 0%nat Scenario.w0 Scenario.globals_connected
           Scenario.one_exchange).
  - reflexivity.
  - intros e He. vm_compute in He. inversion He. reflexivity.
Defined.

(** ** The web client: connecting the assistant *)




(** ** The interactive loops *)

(** The test [user_query.lower() == 'quit'] is equality with [quit] up to
    the case of the letters. *)
Ltac letter_cases c :=
  destruct c as [[] [] [] [] [] [] [] []]; vm_compute;
  split; intros H; first [reflexivity | discriminate H].

Lemma same_letter_q c : Spec.same_letter c "q" = true ↔ ascii_lower c = "q"%char.
Proof. letter_cases c. Qed.
Lemma same_letter_u c : Spec.same_letter c "u" = true ↔ ascii_lower c = "u"%char.
Proof. letter_cases c. Qed.
Lemma same_letter_i c : Spec.same_letter c "i" = true ↔ ascii_lower c = "i"%char.
Proof. letter_cases c. Qed.
Lemma same_letter_t c : Spec.same_letter c "t" = true ↔ ascii_lower c = "t"%char.
Proof. letter_cases c. Qed.

Lemma quit_ignoring_case user_query :
  Spec.equal_ignoring_case user_query "quit" = true ↔ lower user_query = "quit".
Proof.
  destruct user_query as [| c1 [| c2 [| c3 [| c4 [| c5 rest]]]]]; simpl;
    (split; intros H;
     [ repeat (apply andb_prop in H as [? H]); try discriminate H;
       repeat match goal with
         | Hc : Spec.same_letter _ "q" = true |- _ =>
             apply same_letter_q in Hc; rewrite Hc
         | Hc : Spec.same_letter _ "u" = true |- _ =>
             apply same_letter_u in Hc; rewrite Hc
         | Hc : Spec.same_letter _ "i" = true |- _ =>
             apply same_letter_i in Hc; rewrite Hc
         | Hc : Spec.same_letter _ "t" = true |- _ =>
             apply same_letter_t in Hc; rewrite Hc
         end; reflexivity
     | simplify_eq;
       repeat match goal with
         | Hc : ascii_lower _ = "q"%char |- _ =>
             apply same_letter_q in Hc; rewrite Hc
         | Hc : ascii_lower _ = "u"%char |- _ =>
             apply same_letter_u in Hc; rewrite Hc
         | Hc : ascii_lower _ = "i"%char |- _ =>
             apply same_letter_i in Hc; rewrite Hc
         | Hc : ascii_lower _ = "t"%char |- _ =>
             apply same_letter_t in Hc; rewrite Hc
         end; reflexivity ]).
Qed.

Lemma dialogue_cons ev evs r :
  quits ev = false → dialogue evs r → dialogue (ev :: evs) r.
Proof.
  intros Hev [Hno | (pre & q & -> & Hq & Hpre & ->)].
  - left. simpl. by rewrite Hev.
  - right. exists (ev :: pre), q. simpl. rewrite Hev. eauto.
Qed.

Lemma dialogue_app evs1 evs2 r :
  forallb (λ ev, negb (quits ev)) evs1 = true →
  dialogue evs2 r → dialogue (evs1 ++ evs2) r.
Proof.
  induction evs1 as [| ev evs1 IH]; simpl; [done |].
  intros [Hev Hrest]%andb_prop Hd.
  apply dialogue_cons; [by apply negb_true_iff | by apply IH].
Qed.

(** Nothing follows a request to quit. *)
Lemma dialogue_quit_last evs r pre user_query post :
  dialogue evs r →
  evs = pre ++ Ask (Return user_query) :: post →
  lower user_query = "quit" →
  post = [] ∧ r = Return tt.
Proof.
  intros Hd -> Hq.
  assert (Hquits : quits (Ask (Return user_query)) = true).
  { simpl. by apply bool_decide_eq_true. }
  destruct Hd as [Hno | (pre' & q' & Heq & Hq' & Hpre' & ->)].
  - rewrite forallb_app in Hno. simpl in Hno.
    rewrite bool_decide_eq_true_2 in Hno by done.
    simpl in Hno. by rewrite andb_false_r in Hno.
  - split; [| reflexivity].
    destruct post as [| ev post _] using rev_ind; [reflexivity |].
    exfalso.
    change (pre ++ Ask (Return user_query) :: post ++ [ev])
      with (pre ++ (Ask (Return user_query) :: post) ++ [ev]) in Heq.
    rewrite app_assoc in Heq. apply app_inj_tail in Heq as [<- _].
    rewrite forallb_app in Hpre'. simpl in Hpre'.
    rewrite bool_decide_eq_true_2 in Hpre' by done.
    simpl in Hpre'. by rewrite andb_false_r in Hpre'.
Qed.

Lemma chunk_prints_quiet cs :
  forallb (λ ev, negb (quits ev)) (chunk_prints cs) = true
  ∧ forallb (λ ev, negb (is_close ev)) (chunk_prints cs) = true.
Proof.
  induction cs as [| content rest [IH1 IH2]]; simpl; [done |].
  destruct (decide (content = "")); simpl; by rewrite ?IH1, ?IH2.
Qed.

Section AgnoLoop.
Context (env : Oracle AgnoClient.Reply).

Lemma agno_print_chunks_run cs w c :
  AgnoClient.print_chunks cs (w, c)
  = (Return tt, (extend w (chunk_prints cs), c)).
Proof.
  revert w. induction cs as [| content rest IH]; intros w; simpl.
  - by rewrite extend_nil.
  - unfold bind. destruct (decide (content = "")); simpl.
    + apply IH.
    + rewrite IH. by rewrite extend_extend.
Qed.

Lemma agno_agent_arun_run q w c :
  let reply := runtime env (trace w) q in
  AgnoClient.agent_arun env q (w, c)
  = (match AgnoClient.failure reply with
     | Some e => Raise e
     | None => Return tt
     end,
     (extend w (Call (AgentRun q true) (AgnoClient.failure reply)
                :: chunk_prints (AgnoClient.chunks reply)), c)).
Proof.
  intros reply. unfold AgnoClient.agent_arun, bind. fold reply.
  rewrite agno_print_chunks_run, extend_extend. simpl.
  destruct (AgnoClient.failure reply); reflexivity.
Qed.

#[local] Arguments AgnoClient.agent_arun : simpl never.

(** The loop of the terminal client leaves the client object alone,
    closes nothing, and reads nothing after a request to quit. *)
Lemma agno_loop_run stdin w c :
  ∃ evs r,
    AgnoClient.loop env stdin (w, c) = (r, (extend w evs, c))
    ∧ forallb (λ ev, negb (is_close ev)) evs = true
    ∧ dialogue evs r.
Proof.
  revert w. induction stdin as [| line rest IH]; intros w.
  - exists [Print ""; Ask (Raise (Exn EOFErrorC ""))], (Raise (Exn EOFErrorC "")).
    split; [| split; [reflexivity | left; reflexivity]].
    simpl. unfold AgnoClient.turn, bind. simpl. by rewrite extend_extend.
  - simpl. unfold AgnoClient.turn, bind. simpl.
    destruct line as [q | e]; simpl.
    + destruct (decide (lower q = "quit")) as [Hq | Hq]; simpl.
      * exists [Print ""; Ask (Return q)], (Return tt).
        rewrite extend_extend. split; [reflexivity |].
        split; [reflexivity |]. right. exists [Print ""], q. eauto.
      * rewrite agno_agent_arun_run. rewrite !extend_extend. simpl.
        set (reply := runtime env _ q).
        destruct (chunk_prints_quiet (AgnoClient.chunks reply)) as [Hcq Hcc].
        assert (Hnq : bool_decide (lower q = "quit") = false).
        { by apply bool_decide_eq_false. }
        destruct (AgnoClient.failure reply) as [e |].
        -- eexists _, (Raise e). split; [reflexivity |]. simpl.
           split; [exact Hcc |]. left. simpl. rewrite Hnq. exact Hcq.
        -- rewrite !extend_extend. simpl.
           match goal with
           | |- context [AgnoClient.loop env rest (extend w ?evs0, c)] =>
               destruct (IH (extend w evs0)) as (evs & r & Hrun & Hclose & Hd);
               rewrite Hrun; exists (evs0 ++ evs), r
           end.
           rewrite extend_extend. split; [reflexivity |]. split.
           ++ simpl. rewrite !forallb_app, Hcc. simpl. exact Hclose.
           ++ simpl. do 7 (apply dialogue_cons; [exact Hnq || reflexivity |]).
              rewrite <- app_assoc.
              apply dialogue_app; [exact Hcq |].
              apply dialogue_app; [reflexivity | exact Hd].
    + exists [Print ""; Ask (Raise e)], (Raise e).
      rewrite extend_extend. split; [reflexivity |].
      split; [reflexivity | left; reflexivity].
Qed.
End AgnoLoop.

Lemma dialogue_raised evs e :
  dialogue evs (Raise e) → forallb (λ ev, negb (quits ev)) evs = true.
Proof. intros [H | (pre & q & _ & _ & _ & H)]; [exact H | discriminate]. Qed.

Lemma dialogue_snoc evs r ev r' :
  dialogue evs r → forallb (λ ev, negb (quits ev)) evs = true →
  quits ev = false → dialogue (evs ++ [ev]) r'.
Proof.
  intros _ Hno Hev. left. rewrite forallb_app, Hno. simpl. by rewrite Hev.
Qed.

Section AdkLoop.
Context (env : Oracle AdkClient.Reply).

(** The loop of the ADK client closes nothing and reads nothing after a
    request to quit. *)
Lemma adk_loop_run stdin w :
  ∃ evs r,
    AdkClient.loop env stdin (w, tt) = (r, (extend w evs, tt))
    ∧ forallb (λ ev, negb (is_aclose ev)) evs = true
    ∧ dialogue evs r.
Proof.
  revert w. induction stdin as [| line rest IH]; intros w.
  - exists [Print ""; Ask (Raise (Exn EOFErrorC ""))], (Return tt).
    split; [| split; [reflexivity | left; reflexivity]].
    simpl. unfold AdkClient.turn, bind, try_except. simpl.
    by rewrite extend_extend.
  - simpl. unfold AdkClient.turn, bind, try_except. simpl.
    destruct line as [q | e]; simpl.
    + destruct (decide (lower q = "quit")) as [Hq | Hq]; simpl.
      * exists [Print ""; Ask (Return q)], (Return tt).
        rewrite extend_extend. split; [reflexivity |].
        split; [reflexivity |]. right. exists [Print ""], q. eauto.
      * set (reply := runtime env _ q). rewrite !extend_extend. simpl.
        assert (Hnq : bool_decide (lower q = "quit") = false).
        { by apply bool_decide_eq_false. }
        destruct (AdkClient.failure reply) as [e |]; simpl.
        -- destruct (is_Exception e); simpl.
           ++ rewrite !extend_extend. simpl.
              match goal with
              | |- context [AdkClient.loop env rest (extend w ?evs0, tt)] =>
                  destruct (IH (extend w evs0))
                    as (evs & r & Hrun & Hclose & Hd);
                  rewrite Hrun; exists (evs0 ++ evs), r
              end.
              rewrite extend_extend. split; [reflexivity |]. split.
              ** simpl. exact Hclose.
              ** simpl.
                 repeat (apply dialogue_cons; [exact Hnq || reflexivity |]).
                 exact Hd.
           ++ eexists _, (Raise e). split; [reflexivity |].
              split; [reflexivity |]. left. simpl. by rewrite Hnq.
        -- rewrite !extend_extend. simpl.
           match goal with
           | |- context [AdkClient.loop env rest (extend w ?evs0, tt)] =>
               destruct (IH (extend w evs0))
                 as (evs & r & Hrun & Hclose & Hd);
               rewrite Hrun; exists (evs0 ++ evs), r
           end.
           rewrite extend_extend. split; [reflexivity |]. split.
           ++ simpl. exact Hclose.
           ++ simpl.
              repeat (apply dialogue_cons; [exact Hnq || reflexivity |]).
              exact Hd.
    + destruct (is_EOFError e); simpl.
      * exists [Print ""; Ask (Raise e)], (Return tt).
        rewrite extend_extend. split; [reflexivity |].
        split; [reflexivity | left; reflexivity].
      * exists [Print ""; Ask (Raise e)], (Raise e).
        rewrite extend_extend. split; [reflexivity |].
        split; [reflexivity | left; reflexivity].
Qed.
End AdkLoop.

(** The [try] statement of the terminal client: some dialogue that closes
    nothing, then [disconnect], on the client as it was. *)
Lemma agno_session_run env stdin w c :
  ∃ shown r,
    AgnoClient.interactive_session env stdin (w, c)
    = (match (AgnoClient.disconnect env (extend w shown, c)).1 with
       | Return _ => r
       | Raise e => Raise e
       end,
       (AgnoClient.disconnect env (extend w shown, c)).2)
    ∧ forallb (λ ev, negb (is_close ev)) shown = true
    ∧ dialogue shown r.
Proof.
  destruct (agno_loop_run env stdin w c) as (evs & r & Hrun & Hclose & Hd).
  unfold AgnoClient.interactive_session, try_finally, try_except.
  rewrite Hrun. destruct r as [[] | e].
  - exists evs, (Return tt). split; [| done].
    destruct (AgnoClient.disconnect env (extend w evs, c)) as [[[] | e] s2];
      reflexivity.
  - destruct (is_Exception e).
    + exists (evs ++ [Print ("[danger]An error occurred: " +:+ exn_str e
                              +:+ "[/danger]")]), (Return tt).
      simpl. rewrite extend_extend. split; [| split].
      * destruct (AgnoClient.disconnect env _) as [[[] | e'] s2]; reflexivity.
      * rewrite forallb_app, Hclose. reflexivity.
      * eapply dialogue_snoc; [exact Hd | | reflexivity].
        by eapply dialogue_raised.
    + exists evs, (Raise e). split; [| done].
      destruct (AgnoClient.disconnect env (extend w evs, c)) as [[[] | e'] s2];
        reflexivity.
Qed.

(** The [try] suite and the [except] suite of the ADK client: events that
    do not touch the exit stack, read nothing after a request to quit. *)
Lemma adk_body_run env url stdin w :
  ∃ shown r w1,
    try_except is_Exception
      (AdkClient.setup_and_loop env url stdin)
      (λ e, logger_error ("[danger]Error in main execution loop: "
                          +:+ exn_str e +:+ "[/danger]")) (w, tt)
    = (r, (w1, tt))
    ∧ trace w1 = trace w ++ shown
    ∧ forallb (λ ev, negb (is_aclose ev)) shown = true
    ∧ dialogue shown r.
Proof.
  unfold try_except, AdkClient.setup_and_loop, logger_debug, bind.
  oracle_cases;
    try (eexists _, _, _; split; [reflexivity |]; simpl;
         split; [rewrite <- ?app_assoc; simpl; reflexivity |];
         split; [reflexivity | left; reflexivity]).
  match goal with
  | |- context [AdkClient.loop env stdin (?w4, tt)] =>
      destruct (adk_loop_run env stdin w4) as (evs & r & Hrun & Hclose & Hd);
      rewrite Hrun
  end.
  destruct r as [[] | e].
  - eexists _, (Return tt), _. split; [reflexivity |]. simpl.
    split; [rewrite <- !app_assoc; simpl; reflexivity |]. split.
    + simpl. exact Hclose.
    + repeat (apply dialogue_cons; [reflexivity |]). exact Hd.
  - apply dialogue_raised in Hd. destruct (is_Exception e); simpl.
    + eexists _, (Return tt), _. split; [reflexivity |]. simpl.
      split; [rewrite <- !app_assoc; simpl; reflexivity |]. split.
      * simpl. rewrite forallb_app, Hclose. reflexivity.
      * left. simpl. rewrite forallb_app, Hd. reflexivity.
    + eexists _, (Raise e), _. split; [reflexivity |]. simpl.
      split; [rewrite <- !app_assoc; simpl; reflexivity |]. split.
      * simpl. exact Hclose.
      * left. simpl. exact Hd.
Qed.

Lemma agno_deliberate_close_shape env w c hs hc :
  AgnoClient._session_context c = Some hs →
  AgnoClient._streams_context c = Some hc →
  ∃ err rest,
    trace (AgnoClient.disconnect env (w, c)).2.1
    = trace w ++ Call (ClientSessionExit hs) err :: rest
    ∧ forallb is_close (Call (ClientSessionExit hs) err :: rest) = true
    ∧ attempts (ClientSessionExit hs) (Call (ClientSessionExit hs) err :: rest)
      = 1%nat.
Proof.
  intros Hs Hc. unfold AgnoClient.disconnect, AgnoClient.cleanup, bind.
  destruct c as [s st sc ss]. simpl in *. subst.
  unfold attempts.
  oracle_cases; eexists _, _; (split; [rewrite <- ?app_assoc; reflexivity |]);
    simpl; rewrite bool_decide_eq_true_2 by reflexivity; done.
Qed.

Lemma attempts_app op evs1 evs2 :
  attempts op (evs1 ++ evs2) = (attempts op evs1 + attempts op evs2)%nat.
Proof. unfold attempts. by rewrite List.filter_app, length_app. Qed.

Lemma attempts_session_exit_quiet hs evs :
  forallb (λ ev, negb (is_close ev)) evs = true →
  attempts (ClientSessionExit hs) evs = 0%nat.
Proof.
  unfold attempts. induction evs as [| ev evs IH]; simpl; [done |].
  intros [Hev Hrest]%andb_prop.
  destruct ev as [[] ? | | |]; simpl in *; try discriminate; by apply IH.
Qed.

(** C4.  In the terminal client the events of the [try] statement around
    the loop are a dialogue that closes nothing, followed by the closes of
    [disconnect], the session first, attempted once; in the ADK client
    they are a dialogue followed by the close of the exit stack and the
    parting message.  This holds for every input and every behaviour of
    the libraries and of the agent: the input may end, the prompt or the
    agent may raise an exception or an interrupt.  In both clients an
    answer that equals [quit] up to the case of its letters is the last
    event of the dialogue, and the statement then ends as the cleanup
    ends. *)
Theorem loop_exits_through_cleanup (stdin : list (result string)) (w : World) :
  (∀ env c hs hc,
     AgnoClient._session_context c = Some hs →
     AgnoClient._streams_context c = Some hc →
     let run := AgnoClient.interactive_session env stdin (w, c) in
     ∃ shown closing err rest,
       events_since w run.2.1 = shown ++ closing
       ∧ forallb (λ ev, negb (is_close ev)) shown = true
       ∧ closing = Call (ClientSessionExit hs) err :: rest
       ∧ forallb is_close closing = true
       ∧ attempts (ClientSessionExit hs) (events_since w run.2.1) = 1%nat
       ∧ (∀ pre user_query post,
            shown = pre ++ Ask (Return user_query) :: post →
            Spec.equal_ignoring_case user_query "quit" = true →
            post = [] ∧
            run.1 = (AgnoClient.disconnect env (extend w shown, c)).1)) ∧
  (∀ env url,
     let run := AdkClient.interactive_session env url stdin (w, tt) in
     ∃ shown,
       events_since w run.2.1
       = shown ++ [Call ExitStackAclose None;
                   Print "[info]Exiting client.[/info]"]
       ∧ forallb (λ ev, negb (is_aclose ev)) shown = true
       ∧ (∀ pre user_query post,
            shown = pre ++ Ask (Return user_query) :: post →
            Spec.equal_ignoring_case user_query "quit" = true →
            post = [] ∧ run.1 = Return tt)).
Proof.
  split.
  - intros env c hs hc Hs Hc run.
    destruct (agno_session_run env stdin w c) as (shown & r & Hrun & Hquiet & Hd).
    destruct (agno_deliberate_close_shape env (extend w shown) c hs hc Hs Hc)
      as (err & rest & Htrace & Hcloses & Hone).
    exists shown, (Call (ClientSessionExit hs) err :: rest), err, rest.
    assert (Hevs : events_since w run.2.1
                   = shown ++ Call (ClientSessionExit hs) err :: rest).
    { apply events_since_app. subst run. rewrite Hrun. simpl.
      rewrite Htrace. simpl. by rewrite <- app_assoc. }
    split; [exact Hevs |]. split; [exact Hquiet |]. split; [reflexivity |].
    split; [exact Hcloses |]. split.
    + rewrite Hevs, attempts_app, Hone.
      by rewrite attempts_session_exit_quiet.
    + intros pre q post Heq Hq. apply quit_ignoring_case in Hq.
      destruct (dialogue_quit_last _ _ _ _ _ Hd Heq Hq) as [-> ->].
      split; [reflexivity |]. subst run. rewrite Hrun. simpl.
      destruct (AgnoClient.disconnect env (extend w shown, c)) as [[[] | e] s2];
        reflexivity.
  - intros env url run.
    destruct (adk_body_run env url stdin w)
      as (shown & r & w1 & Hbody & Htrace & Hquiet & Hd).
    exists shown. subst run.
    unfold AdkClient.interactive_session, try_finally. rewrite Hbody.
    simpl. split; [| split; [exact Hquiet |]].
    + apply events_since_app. simpl. rewrite Htrace.
      by rewrite <- !app_assoc.
    + intros pre q post Heq Hq. apply quit_ignoring_case in Hq.
      by destruct (dialogue_quit_last _ _ _ _ _ Hd Heq Hq) as [-> ->].
Qed.

Lemma loop_exits_through_cleanup_witness :
  let stdin := [Return "holdings"; Return "QUIT"; Return "never read"] in
  let run := AgnoClient.interactive_session Scenario.agno_ok stdin
               (Scenario.w0, Scenario.agno_connected) in
  ∃ shown closing err rest,
    events_since Scenario.w0 run.2.1 = shown ++ closing
    ∧ forallb (λ ev, negb (is_close ev)) shown = true
    ∧ closing = Call (ClientSessionExit 1) err :: rest
    ∧ forallb is_close closing = true
    ∧ attempts (ClientSessionExit 1) (events_since Scenario.w0 run.2.1) = 1%nat
    ∧ (∀ pre user_query post,
         shown = pre ++ Ask (Return user_query) :: post →
         Spec.equal_ignoring_case user_query "quit" = true →
         post = [] ∧
         run.1 = (AgnoClient.disconnect Scenario.agno_ok
                    (extend Scenario.w0 shown, Scenario.agno_connected)).1).
Proof.
  intros stdin run.
  apply (proj1 (loop_exits_through_cleanup stdin Scenario.w0)
           Scenario.agno_ok Scenario.agno_connected 1%nat 0%nat);
    reflexivity.
Defined.

Example quit_in_capitals :
  Spec.equal_ignoring_case "QUIT" "quit" = true
  ∧ Spec.equal_ignoring_case "Quit" "quit" = true
  ∧ Spec.equal_ignoring_case "quit " "quit" = false
  ∧ Spec.equal_ignoring_case "exit" "quit" = false.
Proof. repeat split. Qed.

Example agno_quit_run :
  AgnoClient.interactive_session Scenario.agno_ok
    [Return "holdings"; Return "QUIT"; Return "never read"]
    (Scenario.w0, Scenario.agno_connected)
  = (Return tt,
     (mkWorld
        [ Print ""; Ask (Return "holdings"); Print "";
          Print "[user]You:[/user] holdings"; Print "";
          Print "[assistant]Assistant:[/assistant] ";
          Call (AgentRun "holdings" true) None;
          Print "You said: "; Print "holdings"; Print ""; Print "";
          Print ""; Ask (Return "QUIT");
          Call (ClientSessionExit 1) None; Call (SseClientExit 0) None ]
        0,
      Scenario.agno_connected)).
Proof. vm_compute. reflexivity. Qed.

Example adk_interrupt_run :
  AdkClient.interactive_session Scenario.adk_ok "http://localhost:8001/sse"
    [Raise (Exn KeyboardInterruptC "")] (Scenario.w0, tt)
  = (Raise (Exn KeyboardInterruptC ""),
     (mkWorld
        [ Call (McpToolsetNew "http://localhost:8001/sse") None;
          Call (LlmAgentNew [Toolset 0; SearchAgentTool]) None;
          Call (RunnerNew 1) None;
          Call CreateSession None;
          Print "[info]Session created: <session>[/info]";
          Print "";
          Print "[info]Welcome to Zerodha! (Running in non-live test mode)[/info]";
          Print ""; Ask (Raise (Exn KeyboardInterruptC ""));
          Call ExitStackAclose None;
          Print "[info]Exiting client.[/info]" ]
        2,
      tt)).
Proof. vm_compute. reflexivity. Qed.

(** ** A turn that fails *)

(** In the ADK client a turn in which the runtime raises an [Exception]
    shows the error as the assistant's answer, and the loop goes on with
    the next line of input. *)
Lemma adk_failed_turn_continues env q rest w e :
  lower q ≠ "quit" →
  AdkClient.failure
    (runtime env
       (trace w ++ [Print ""; Ask (Return q);
                    Print ("[user]You:[/user] " +:+ q); Print ""]) q)
  = Some e →
  is_Exception e = true →
  AdkClient.loop env (Return q :: rest) (w, tt)
  = AdkClient.loop env rest
      (extend w
         [ Print ""; Ask (Return q);
           Print ("[user]You:[/user] " +:+ q); Print "";
           Call (AgentRun q true) (Some e);
           Log ("[danger]Error during runner execution: " +:+ exn_str e
                +:+ "[/danger]");
           Print ("[assistant]Assistant:[/assistant] "
                  +:+ "[bold red]Error: " +:+ exn_str e +:+ "[/bold red]");
           Print "" ],
       tt).
Proof.
  intros Hq Hfail Hexc. simpl.
  unfold AdkClient.turn, bind, try_except. simpl.
  destruct (decide (lower q = "quit")); [done |]. simpl.
  rewrite <- !app_assoc. simpl. rewrite Hfail. simpl. rewrite Hexc. simpl.
  rewrite !extend_extend. reflexivity.
Qed.

Lemma adk_failed_turn_continues_example :
  AdkClient.loop Scenario.adk_agent_down [Return "holdings"; Return "quit"]
    (Scenario.w0, tt)
  = AdkClient.loop Scenario.adk_agent_down [Return "quit"]
      (extend Scenario.w0
         [ Print ""; Ask (Return "holdings");
           Print "[user]You:[/user] holdings"; Print "";
           Call (AgentRun "holdings" true) (Some Scenario.runtime_error);
           Log "[danger]Error during runner execution: model unavailable[/danger]";
           Print "[assistant]Assistant:[/assistant] [bold red]Error: model unavailable[/bold red]";
           Print "" ],
       tt).
Proof.
  apply (adk_failed_turn_continues Scenario.adk_agent_down "holdings"
           [Return "quit"] Scenario.w0 Scenario.runtime_error).
  - vm_compute. discriminate.
  - reflexivity.
  - reflexivity.
Defined.

(** C2 fails in [agno_client.py].  The [try] statement encloses the whole
    loop: when the agent raises in the first turn, the error is printed,
    [disconnect] runs and the statement ends; whatever input follows is
    never read. *)
Theorem agno_failed_turn_ends_loop (rest : list (result string)) :
  AgnoClient.interactive_session Scenario.agno_agent_down
    (Return "holdings" :: rest) (Scenario.w0, Scenario.agno_connected)
  = (Return tt,
     (mkWorld
        [ Print ""; Ask (Return "holdings"); Print "";
          Print "[user]You:[/user] holdings"; Print "";
          Print "[assistant]Assistant:[/assistant] ";
          Call (AgentRun "holdings" true) (Some Scenario.runtime_error);
          Print "[danger]An error occurred: model unavailable[/danger]";
          Call (ClientSessionExit 1) None; Call (SseClientExit 0) None ]
        0,
      Scenario.agno_connected)).
Proof. vm_compute. reflexivity. Qed.

(** * Further properties of the clients *)

(** ** Start-up of the terminal clients *)



(** ** The connection panel of the web client *)

Lemma string_app_cons c s t : String c s +:+ t = String c (s +:+ t).
Proof. reflexivity. Qed.

Lemma prefix_spec a b :
  Stdlib.Strings.String.prefix a b = true ↔ ∃ post, b = a +:+ post.
Proof.
  revert b. induction a as [| c a IH]; intros b.
  - split; [intros _; by exists b | intros _; by destruct b].
  - destruct b as [| d b]; simpl.
    + split; [done | intros [post H]; discriminate H].
    + destruct (Ascii.ascii_dec c d) as [-> | Hne].
      * rewrite IH. split; intros [post H]; exists post.
        -- by rewrite string_app_cons, <- H.
        -- rewrite string_app_cons in H. by injection H.
      * split; [done |]. intros [post H].
        rewrite string_app_cons in H. injection H as H1 H2. congruence.
Qed.

Lemma str_in_spec needle text :
  str_in needle text = true ↔ ∃ pre post, text = pre +:+ needle +:+ post.
Proof.
  induction text as [| c text IH].
  - change (str_in needle "")
      with (Stdlib.Strings.String.prefix needle "" || false).
    rewrite orb_false_r, prefix_spec. split.
    + intros [post H]. by exists "", post.
    + intros ([| d pre] & post & H); [by exists post |].
      rewrite string_app_cons in H. discriminate H.
  - change (str_in needle (String c text))
      with (Stdlib.Strings.String.prefix needle (String c text)
            || str_in needle text).
    rewrite orb_true_iff, prefix_spec, IH. split.
    + intros [[post H] | (pre & post & H)].
      * by exists "", post.
      * exists (String c pre), post. by rewrite string_app_cons, <- H.
    + intros ([| d pre] & post & H).
      * left. by exists post.
      * right. rewrite string_app_cons in H. injection H as -> H.
        by exists pre, post.
Qed.

(** X2.  [enable_chat] makes the message box and the send button
    interactive together, exactly for a status text in which
    [Connected successfully] occurs somewhere, and the placeholder of the
    message box invites to type exactly then. *)
Theorem enable_chat_on_success_text status_text :
  let controls := GradioClient.enable_chat status_text in
  (GradioClient.msg_box_interactive controls = true
   ↔ ∃ pre post,
       status_text = pre +:+ "Connected successfully" +:+ post)
  ∧ GradioClient.send_btn_interactive controls
    = GradioClient.msg_box_interactive controls
  ∧ (GradioClient.msg_box_placeholder controls = "Type your message here..."
     ↔ GradioClient.msg_box_interactive controls = true)
  ∧ (GradioClient.msg_box_placeholder controls = "Connect to MCP server first..."
     ↔ GradioClient.msg_box_interactive controls = false).
Proof.
  unfold GradioClient.enable_chat. simpl.
  split; [apply str_in_spec |]. split; [reflexivity |].
  destruct (str_in "Connected successfully" status_text);
    split; split; intros H; try reflexivity; discriminate H.
Qed.





(** ** Chatting and disconnecting in the web client *)

(** X5.  [chat_handler] answers as [ZerodhaAssistant.chat] does: on the
    same assistant and message both make the same library calls, the
    handler raises exactly when [chat] raises, and otherwise the pair it
    appends to the history holds the message and the text that [chat]
    returns. *)
Theorem chat_handler_agrees_with_chat env message history w g entries :
  GradioClient.lists g !! history = Some entries →
  let said := GradioClient.chat env message (w, GradioClient.assistant g) in
  let handled := GradioClient.chat_handler env message history (w, g) in
  handled.2.1 = said.2.1
  ∧ GradioClient.assistant handled.2.2 = said.2.2
  ∧ match said.1 with
    | Return response =>
        handled.1 = Return (length (GradioClient.lists g))
        ∧ GradioClient.lists handled.2.2
          = GradioClient.lists g ++ [entries ++ [[message; response]]]
    | Raise e => handled.1 = Raise e
    end.
Proof.
  intros Hh said handled. subst said handled.
  unfold GradioClient.chat, GradioClient.chat_handler, GradioClient.this,
    GradioClient.on_assistant, GradioClient.list_add, bind, try_except.
  destruct g as [a ls]. simpl in *.
  destruct (negb (GradioClient.connected a)
            || negb (bool_decide (is_Some (GradioClient.agent a)))); simpl.
  - rewrite Hh. simpl. done.
  - unfold GradioClient.agent_arun.
    destruct (runtime env (trace w) message) as [content | e]; simpl.
    + rewrite Hh. simpl. done.
    + destruct (is_Exception e); simpl; [| done].
      rewrite Hh. simpl. done.
Qed.

Lemma chat_handler_agrees_with_chat_witness :
  let said := GradioClient.chat Scenario.gradio_ok "margins?"
                (Scenario.w0, Scenario.assistant_connected) in
  let handled := GradioClient.chat_handler Scenario.gradio_ok "margins?" 0%nat
                   (Scenario.w0, Scenario.globals_connected) in
  handled.2.1 = said.2.1
  ∧ GradioClient.assistant handled.2.2 = said.2.2
  ∧ match said.1 with
    | Return response =>
        handled.1 = Return 1%nat
        ∧ GradioClient.lists handled.2.2
          = [Scenario.one_exchange]
            ++ [Scenario.one_exchange ++ [["margins?"; response]]]
    | Raise e => handled.1 = Raise e
    end.
Proof.
  apply (chat_handler_agrees_with_chat Scenario.gradio_ok "margins?" 0%nat
           Scenario.w0 Scenario.globals_connected Scenario.one_exchange).
  reflexivity.
Defined.

(** X6.  [ZerodhaAssistant.disconnect] on a connected assistant closes
    through its client.  When the closes return it answers
    ["Disconnected successfully!"] and the assistant is as new.  When a
    close raises an [Exception] it answers ["Error during disconnect: "]
    and the text of the exception, and the assistant stays connected with
    its agent and with a client that still holds both contexts, so a
    later disconnect attempts the closes again.  Anything else that a
    close raises goes through. *)
Theorem assistant_disconnect_outcomes env w a c :
  GradioClient.connected a = true →
  GradioClient.client a = Some c →
  let closing := GradioClient.disconnect env (w, c) in
  let run := GradioClient.assistant_disconnect env (w, a) in
  run.2.1 = closing.2.1
  ∧ match closing.1 with
    | Return _ =>
        run.1 = Return "Disconnected successfully!"
        ∧ run.2.2 = GradioClient.ZerodhaAssistant_init
    | Raise e =>
        run.1 = (if is_Exception e
                 then Return ("Error during disconnect: " +:+ exn_str e)
                 else Raise e)
        ∧ GradioClient.connected run.2.2 = true
        ∧ GradioClient.agent run.2.2 = GradioClient.agent a
        ∧ ∃ c', GradioClient.client run.2.2 = Some c'
                ∧ GradioClient._session_context c'
                  = GradioClient._session_context c
                ∧ GradioClient._streams_context c'
                  = GradioClient._streams_context c
    end.
Proof.
  intros Hc Hclient closing run. subst closing run.
  pose proof (gradio_cleanup_keeps_contexts env w c) as [Hks Hkc].
  unfold GradioClient.disconnect in *.
  unfold GradioClient.assistant_disconnect, GradioClient.this,
    GradioClient.with_client, GradioClient.disconnect, bind, try_except.
  destruct a as [cl ag co]. simpl in *. subst cl co. simpl.
  destruct (GradioClient.cleanup env (w, c)) as [[[] | e] [w1 c1]];
    simpl in *.
  - done.
  - destruct (is_Exception e); simpl; eauto 10.
Qed.

Lemma assistant_disconnect_outcomes_witness :
  let closing := GradioClient.disconnect Scenario.gradio_ok
                   (Scenario.w0, Scenario.gradio_connected) in
  let run := GradioClient.assistant_disconnect Scenario.gradio_ok
               (Scenario.w0, Scenario.assistant_connected) in
  run.2.1 = closing.2.1
  ∧ run.1 = Return "Disconnected successfully!"
  ∧ run.2.2 = GradioClient.ZerodhaAssistant_init.
Proof.
  apply (assistant_disconnect_outcomes Scenario.gradio_ok Scenario.w0
           Scenario.assistant_connected Scenario.gradio_connected);
    reflexivity.
Defined.

(** ** Connecting the assistant of the web client *)

(** The calls of [ZerodhaAssistant.connect] after the client has
    connected, on a world whose next object was [n] before the connect. *)
Lemma gradio_connect_success env host port w a s' :
  GradioClient.connected a = false →
  GradioClient.connect env host port (w, a)
  = (Return "Connected successfully! Ready to assist you.", s') →
  let n := next_id w in
  trace s'.1
  = trace w
    ++ connect_calls n ("http://" +:+ host +:+ ":" +:+ str_int port +:+ "/sse")
    ++ [ Call (McpToolsNew (Some (S n))) None;
         Call (McpToolsInitialize (S (S n))) None;
         Call (AgentNew (GradioClient.agent_config (S (S n)))) None ]
  ∧ s'.2 = GradioClient.mkZerodhaAssistant
             (Some (GradioClient.mkMCPClient (Some (S n)) (Some n) (Some (S n))))
             (Some (GradioClient.agent_config (S (S n)))) true
  ∧ next_id s'.1 = S (S (S n)).
Proof.
  intros Hc H n. subst n.
  unfold GradioClient.connect, GradioClient.this, bind in H. simpl in H.
  rewrite Hc in H.
  unfold GradioClient.connect_steps, GradioClient.connect_failed,
    GradioClient.with_client, GradioClient.connect_to_sse_server,
    GradioClient.disconnect, GradioClient.cleanup, GradioClient.this,
    try_except, bind in H.
  oracle_cases_in H;
    try discriminate H;
    try (exfalso; inversion H as [[Hs Hrest]]; vm_compute in Hs;
         discriminate Hs).
  inversion H; subst; simpl.
  split; [| done].
  rewrite <- !app_assoc. reflexivity.
Qed.

(** X7.  A [ZerodhaAssistant.connect] that answers that it connected has
    made exactly eight library calls: the five of the client's connect,
    then [MCPTools(session=...)] over the session, its [initialize], and
    [Agent(...)] with these tools and a tool-call limit of 10; it leaves
    the assistant connected, with this agent and with a client that holds
    the stream and the session. *)
Theorem connect_success_calls env host port w a s' :
  GradioClient.connected a = false →
  GradioClient.connect env host port (w, a)
  = (Return "Connected successfully! Ready to assist you.", s') →
  let n := next_id w in
  events_since w s'.1
  = [ Call (SseClientEnter n
              ("http://" +:+ host +:+ ":" +:+ str_int port +:+ "/sse")) None;
      Call (ClientSessionNew n) None;
      Call (ClientSessionEnter (S n)) None;
      Call (SessionInitialize (S n)) None;
      Call (SessionListTools (S n)) None;
      Call (McpToolsNew (Some (S n))) None;
      Call (McpToolsInitialize (S (S n))) None;
      Call (AgentNew (GradioClient.agent_config (S (S n)))) None ]
  ∧ GradioClient.connected s'.2 = true
  ∧ (∃ cfg, GradioClient.agent s'.2 = Some cfg
            ∧ tool_call_limit cfg = 10 ∧ tools cfg = [S (S n)])
  ∧ GradioClient.client s'.2
    = Some (GradioClient.mkMCPClient (Some (S n)) (Some n) (Some (S n))).
Proof.
  intros Hc H n.
  destruct (gradio_connect_success env host port w a s' Hc H)
    as (Hevs & Hstate & _).
  split; [by apply events_since_app |]. rewrite Hstate. simpl. eauto 10.
Qed.

Lemma connect_success_calls_witness :
  let run := GradioClient.connect Scenario.gradio_ok "localhost" 8001
               (Scenario.w0, GradioClient.ZerodhaAssistant_init) in
  events_since Scenario.w0 run.2.1
  = [ Call (SseClientEnter 0 "http://localhost:8001/sse") None;
      Call (ClientSessionNew 0) None;
      Call (ClientSessionEnter 1) None;
      Call (SessionInitialize 1) None;
      Call (SessionListTools 1) None;
      Call (McpToolsNew (Some 1%nat)) None;
      Call (McpToolsInitialize 2) None;
      Call (AgentNew (GradioClient.agent_config 2%nat)) None ]
  ∧ GradioClient.connected run.2.2 = true
  ∧ (∃ cfg, GradioClient.agent run.2.2 = Some cfg
            ∧ tool_call_limit cfg = 10 ∧ tools cfg = [2%nat])
  ∧ GradioClient.client run.2.2
    = Some (GradioClient.mkMCPClient (Some 1%nat) (Some 0%nat) (Some 1%nat)).
Proof.
  intros run.
  apply (connect_success_calls Scenario.gradio_ok "localhost" 8001
           Scenario.w0 GradioClient.ZerodhaAssistant_init run.2);
    reflexivity.
Defined.

(** Case analysis on the answers of the environment when closes are known
    to return and failures are known to be of class [Exception]. *)
Ltac oracle_cases_closing Hclose Hexc :=
  cbn;
  repeat match goal with
         | |- context [lib ?env ?tr (ClientSessionExit ?ctx)] =>
             rewrite (proj1 (Hclose tr ctx)); cbn
         | |- context [lib ?env ?tr (SseClientExit ?ctx)] =>
             rewrite (proj2 (Hclose tr ctx)); cbn
         | |- context [lib ?env ?tr ?op] =>
             let E := fresh "Hlib" in
             destruct (lib env tr op) eqn:E; cbn
         | Hlib : lib ?env ?tr ?op = Some ?e |- context [is_Exception ?e] =>
             rewrite (Hexc tr op e Hlib); cbn
         end.

(** X8.  Connecting and then disconnecting is a round trip.  After a
    connect that succeeded, when the closes return,
    [ZerodhaAssistant.disconnect] answers ["Disconnected successfully!"],
    the assistant is as new, and over the two calls together the session
    and the stream that were entered have each been closed once, the
    session before the stream. *)
Theorem connect_disconnect_round_trip env host port w a s1 :
  GradioClient.connected a = false →
  GradioClient.connect env host port (w, a)
  = (Return "Connected successfully! Ready to assist you.", s1) →
  (∀ tr ctx, lib env tr (ClientSessionExit ctx) = None
             ∧ lib env tr (SseClientExit ctx) = None) →
  let n := next_id w in
  let run := GradioClient.assistant_disconnect env s1 in
  run.1 = Return "Disconnected successfully!"
  ∧ run.2.2 = GradioClient.ZerodhaAssistant_init
  ∧ events_since s1.1 run.2.1
    = [Call (ClientSessionExit (S n)) None; Call (SseClientExit n) None]
  ∧ attempts (ClientSessionExit (S n)) (events_since w run.2.1) = 1%nat
  ∧ attempts (SseClientExit n) (events_since w run.2.1) = 1%nat.
Proof.
  intros Hc H Hclose n run. subst n run.
  destruct (gradio_connect_success env host port w a s1 Hc H)
    as (Htrace & Hstate & _).
  destruct s1 as [w1 a1]. simpl in *. subst a1.
  unfold GradioClient.assistant_disconnect, GradioClient.this,
    GradioClient.with_client, GradioClient.disconnect, GradioClient.cleanup,
    try_except, bind.
  oracle_cases_closing Hclose Hclose.
  split; [reflexivity |]. split; [reflexivity |].
  split; [apply events_since_app; simpl; by rewrite <- !app_assoc |].
  erewrite !events_since_app
    by (simpl; rewrite Htrace, <- !app_assoc; simpl; reflexivity).
  unfold attempts. simpl.
  rewrite !bool_decide_eq_true_2 by reflexivity.
  done.
Qed.

Lemma connect_disconnect_round_trip_witness :
  let s1 := (GradioClient.connect Scenario.gradio_ok "localhost" 8001
               (Scenario.w0, GradioClient.ZerodhaAssistant_init)).2 in
  let run := GradioClient.assistant_disconnect Scenario.gradio_ok s1 in
  run.1 = Return "Disconnected successfully!"
  ∧ run.2.2 = GradioClient.ZerodhaAssistant_init
  ∧ events_since s1.1 run.2.1
    = [Call (ClientSessionExit 1) None; Call (SseClientExit 0) None]
  ∧ attempts (ClientSessionExit 1) (events_since Scenario.w0 run.2.1) = 1%nat
  ∧ attempts (SseClientExit 0) (events_since Scenario.w0 run.2.1) = 1%nat.
Proof.
  intros s1 run.
  apply (connect_disconnect_round_trip Scenario.gradio_ok "localhost" 8001
           Scenario.w0 GradioClient.ZerodhaAssistant_init s1).
  - reflexivity.
  - reflexivity.
  - intros tr ctx. split; reflexivity.
Defined.

Ltac solve_attempts :=
  unfold attempts; simpl;
  rewrite ?bool_decide_eq_true_2 by reflexivity; reflexivity.

(** X9.  How often a [ZerodhaAssistant.connect] that fails closes the
    stream it has entered, when failures are of class [Exception] and
    closes return.  It answers ["Failed to connect: "] and the text of the
    exception and leaves the assistant as new.  When the failure is in the
    client's connect (the session, [initialize], [list_tools]) the stream
    is closed twice, by the handler of the client's connect and again by
    the handler of the assistant; when it is in the tools or the agent, the
    stream is closed once. *)
Theorem failed_connect_closes env host port w a :
  GradioClient.connected a = false →
  (∀ tr ctx, lib env tr (ClientSessionExit ctx) = None
             ∧ lib env tr (SseClientExit ctx) = None) →
  (∀ tr op e, lib env tr op = Some e → is_Exception e = true) →
  let n := next_id w in
  let run := GradioClient.connect env host port (w, a) in
  let evs := events_since w run.2.1 in
  Call (SseClientEnter n
          ("http://" +:+ host +:+ ":" +:+ str_int port +:+ "/sse")) None ∈ evs →
  run.1 ≠ Return "Connected successfully! Ready to assist you." →
  run.2.2 = GradioClient.ZerodhaAssistant_init
  ∧ (∃ e, run.1 = Return ("Failed to connect: " +:+ exn_str e))
  ∧ (Call (SessionListTools (S n)) None ∉ evs →
     attempts (SseClientExit n) evs = 2%nat)
  ∧ (Call (SessionListTools (S n)) None ∈ evs →
     attempts (SseClientExit n) evs = 1%nat).
Proof.
  intros Hc Hclose Hexc n run evs. subst n run evs.
  unfold GradioClient.connect, GradioClient.this, bind. simpl.
  rewrite Hc.
  unfold GradioClient.connect_steps, GradioClient.connect_failed,
    GradioClient.with_client, GradioClient.connect_to_sse_server,
    GradioClient.disconnect, GradioClient.cleanup, GradioClient.this,
    try_except, bind.
  oracle_cases_closing Hclose Hexc;
    (erewrite events_since_app
       by (simpl; rewrite <- ?app_assoc; simpl; reflexivity));
    intros Hin Hfail;
    try (exfalso; elem_cases Hin; congruence);
    try (exfalso; apply Hfail; reflexivity);
    (split; [reflexivity |]); (split; [eauto |]);
    (split; intros Hm;
     first [ solve_attempts
           | exfalso; elem_cases Hm; congruence
           | exfalso; apply Hm;
             solve [eauto 10 using list_elem_of_here, list_elem_of_further] ]).
Qed.

Lemma failed_connect_closes_witness :
  let run := GradioClient.connect Scenario.gradio_no_handshake "localhost" 8001
               (Scenario.w0, GradioClient.ZerodhaAssistant_init) in
  run.2.2 = GradioClient.ZerodhaAssistant_init
  ∧ (∃ e, run.1 = Return ("Failed to connect: " +:+ exn_str e))
  ∧ (Call (SessionListTools 1) None ∉ events_since Scenario.w0 run.2.1 →
     attempts (SseClientExit 0) (events_since Scenario.w0 run.2.1) = 2%nat)
  ∧ (Call (SessionListTools 1) None ∈ events_since Scenario.w0 run.2.1 →
     attempts (SseClientExit 0) (events_since Scenario.w0 run.2.1) = 1%nat).
Proof.
  intros run.
  apply (failed_connect_closes Scenario.gradio_no_handshake "localhost" 8001
           Scenario.w0 GradioClient.ZerodhaAssistant_init).
  - reflexivity.
  - intros tr ctx. split; reflexivity.
  - intros tr op e He. destruct op; vm_compute in He; try discriminate He.
    inversion He. reflexivity.
  - vm_compute. apply list_elem_of_here.
  - vm_compute. discriminate.
Defined.

(** ** An invariant of the web client *)

Ltac solve_assistant_ok :=
  unfold assistant_ok; simpl;
  split;
  [ split; intros H;
    [ first [discriminate H | eauto]
    | first [reflexivity | destruct H as [? H]; discriminate H] ]
  | intros H; first [discriminate H | eauto 10] ].

Lemma connect_keeps_ok env host port w a :
  assistant_ok a → assistant_ok (GradioClient.connect env host port (w, a)).2.2.
Proof.
  intros Hok. unfold GradioClient.connect, GradioClient.this, bind. simpl.
  destruct (GradioClient.connected a) eqn:Hc; [exact Hok |].
  assert (Hagent : GradioClient.agent a = None).
  { destruct Hok as [[_ Hok] _].
    destruct (GradioClient.agent a) as [cfg |]; [| done].
    exfalso. assert (Hft : GradioClient.connected a = true)
      by (apply Hok; eauto).
    congruence. }
  destruct a as [cl ag co]. simpl in *. subst ag co.
  unfold GradioClient.connect_steps, GradioClient.connect_failed,
    GradioClient.with_client, GradioClient.connect_to_sse_server,
    GradioClient.disconnect, GradioClient.cleanup, GradioClient.this,
    try_except, bind.
  oracle_cases; solve_assistant_ok.
Qed.

Lemma disconnect_keeps_ok env w a :
  assistant_ok a → assistant_ok (GradioClient.assistant_disconnect env (w, a)).2.2.
Proof.
  intros Hok.
  unfold GradioClient.assistant_disconnect, GradioClient.this, bind. simpl.
  destruct (GradioClient.connected a) eqn:Hc; [| exact Hok]. simpl.
  destruct Hok as [[Hag _] Hcl].
  destruct (Hcl Hc) as (c & hs & hc & Hclient & Hs & Hsc & Hcc).
  destruct (Hag Hc) as [cfg Hcfg].
  destruct a as [cl ag co]. simpl in *. subst cl ag co.
  destruct c as [s sc ss]. simpl in *. subst s sc ss.
  unfold GradioClient.with_client, GradioClient.disconnect,
    GradioClient.cleanup, GradioClient.this, try_except, bind.
  oracle_cases; solve_assistant_ok.
Qed.

Lemma chat_handler_keeps_assistant env message history w g :
  GradioClient.assistant (GradioClient.chat_handler env message history (w, g)).2.2
  = GradioClient.assistant g.
Proof.
  unfold GradioClient.chat_handler, GradioClient.on_assistant,
    GradioClient.this, GradioClient.list_add, GradioClient.agent_arun,
    try_except, bind.
  destruct g as [a ls]. simpl.
  destruct (negb (GradioClient.connected a)
            || negb (bool_decide (is_Some (GradioClient.agent a)))); simpl.
  - destruct (ls !! history); reflexivity.
  - destruct (runtime env (trace w) message) as [content | e]; simpl.
    + destruct (ls !! history); simpl; [reflexivity |].
      rewrite ?andb_true_r. simpl. destruct (ls !! history); reflexivity.
    + destruct (is_Exception e); simpl; [| reflexivity].
      destruct (ls !! history); reflexivity.
Qed.

Lemma connect_handler_assistant env host port w g :
  GradioClient.assistant (GradioClient.connect_handler env host port (w, g)).2.2
  = GradioClient.assistant g
  ∨ ∃ n, GradioClient.assistant
           (GradioClient.connect_handler env host port (w, g)).2.2
         = (GradioClient.connect env host n (w, GradioClient.assistant g)).2.2.
Proof.
  unfold GradioClient.connect_handler, GradioClient.on_assistant, try_except,
    bind, py_int.
  destruct (int_literal port) as [n |]; simpl; [| by left].
  right. exists n.
  destruct (GradioClient.connect env host n (w, GradioClient.assistant g))
    as [[status | e] [w1 a1]]; simpl; [reflexivity |].
  destruct (is_ValueError e), (is_Exception e); reflexivity.
Qed.

Lemma serve_keeps_ok env s rq :
  assistant_ok (GradioClient.assistant s.2) →
  assistant_ok (GradioClient.assistant (serve env s rq).2).
Proof.
  intros Hok. destruct s as [w g]. destruct rq as [host port | | message history];
    simpl in *.
  - destruct (connect_handler_assistant env host port w g) as [-> | [n ->]];
      [exact Hok | by apply connect_keeps_ok].
  - unfold GradioClient.disconnect_handler, GradioClient.on_assistant.
    pose proof (disconnect_keeps_ok env w (GradioClient.assistant g) Hok) as H.
    destruct (GradioClient.assistant_disconnect env (w, GradioClient.assistant g))
      as [r [w1 a1]]. exact H.
  - by rewrite chat_handler_keeps_assistant.
Qed.

(** X10.  Whatever the page requests, in whatever order, and whatever the
    libraries and the agent do (exceptions and interrupts included), the
    module-level assistant keeps this invariant: it has an agent exactly
    when it is connected, and when it is connected it has a client that
    holds its session, its session context and its stream context. *)
Theorem assistant_invariant env (rqs : list Request) s :
  assistant_ok (GradioClient.assistant s.2) →
  assistant_ok (GradioClient.assistant (serve_all env s rqs).2).
Proof.
  unfold serve_all. revert s.
  induction rqs as [| rq rqs IH]; intros s Hok; simpl; [exact Hok |].
  apply IH. by apply serve_keeps_ok.
Qed.

Lemma assistant_invariant_witness :
  assistant_ok
    (GradioClient.assistant
       (serve_all Scenario.gradio_no_handshake_strict_close
          (Scenario.w0,
           GradioClient.mkGlobals GradioClient.ZerodhaAssistant_init [[]])
          [ ChatSubmit "hello" 0%nat; ConnectClick "localhost" "8001";
            DisconnectClick; ConnectClick "localhost" "x" ]).2).
Proof.
  apply (assistant_invariant Scenario.gradio_no_handshake_strict_close).
  unfold assistant_ok. simpl. split; [split |]; intros H; try discriminate H.
  destruct H as [? H]. discriminate H.
Defined.

(** ** The answer of the ADK runner *)

Lemma string_app_nil_r s : s +:+ "" = s.
Proof. induction s as [| c s IH]; [done |]. by rewrite string_app_cons, IH. Qed.

Lemma string_app_assoc s t u : (s +:+ t) +:+ u = s +:+ (t +:+ u).
Proof.
  induction s as [| c s IH]; [done |]. by rewrite !string_app_cons, IH.
Qed.

Lemma join_app texts1 texts2 : join (texts1 ++ texts2) = join texts1 +:+ join texts2.
Proof.
  unfold join. induction texts1 as [| t texts1 IH]; simpl; [done |].
  by rewrite IH, string_app_assoc.
Qed.

Lemma add_parts_join text parts :
  AdkClient.add_parts text parts = text +:+ join parts.
Proof.
  unfold AdkClient.add_parts, join. revert text.
  induction parts as [| part parts IH]; intros text; simpl.
  - by rewrite string_app_nil_r.
  - rewrite IH. destruct (decide (part = "")) as [-> | _]; [done |].
    by rewrite string_app_assoc.
Qed.

Lemma add_event_join text ev :
  AdkClient.add_event text ev = text +:+ join (final_texts ev).
Proof.
  unfold AdkClient.add_event, final_texts.
  destruct (AdkClient.content ev) as [parts |],
           (AdkClient.is_final_response ev); simpl;
    rewrite ?add_parts_join; unfold join; simpl;
    by rewrite ?string_app_nil_r.
Qed.

Lemma fold_add_event_join text evs :
  foldl AdkClient.add_event text evs
  = text +:+ join (flat_map final_texts evs).
Proof.
  revert text. induction evs as [| ev evs IH]; intros text; simpl.
  - unfold join. simpl. by rewrite string_app_nil_r.
  - by rewrite IH, add_event_join, join_app, string_app_assoc.
Qed.

(** X11.  The text the ADK client shows for a turn is the concatenation,
    in order, of the texts of all parts of the events that are final
    responses: an event that is not final or has no content adds nothing,
    and the text for two runs of events is the text for the first followed
    by the text for the second. *)
Theorem response_text_is_join evs :
  AdkClient.response_text evs = join (flat_map final_texts evs)
  ∧ (∀ evs', AdkClient.response_text (evs ++ evs')
             = AdkClient.response_text evs +:+ AdkClient.response_text evs')
  ∧ (∀ ev, AdkClient.is_final_response ev = false ∨ AdkClient.content ev = None →
           AdkClient.response_text (evs ++ [ev]) = AdkClient.response_text evs).
Proof.
  assert (Hjoin : ∀ l, AdkClient.response_text l = join (flat_map final_texts l)).
  { intros l. unfold AdkClient.response_text. by rewrite fold_add_event_join. }
  split; [apply Hjoin |]. split.
  - intros evs'. by rewrite !Hjoin, flat_map_app, join_app.
  - intros ev Hev. rewrite !Hjoin, flat_map_app, join_app. simpl.
    assert (final_texts ev = []) as ->.
    { unfold final_texts. destruct Hev as [-> | ->]; [done |].
      by destruct (AdkClient.is_final_response ev). }
    unfold join at 2. simpl. by rewrite string_app_nil_r.
Qed.

Lemma response_text_is_join_witness :
  AdkClient.response_text
    ([AdkClient.mkEvent true (Some ["Your "; ""; "margin"])]
     ++ [AdkClient.mkEvent false (Some ["thinking"])])
  = AdkClient.response_text
      [AdkClient.mkEvent true (Some ["Your "; ""; "margin"])].
Proof.
  apply (proj2 (proj2 (response_text_is_join
                         [AdkClient.mkEvent true (Some ["Your "; ""; "margin"])]))).
  left. reflexivity.
Defined.

(** ** What the loops forward to the agent *)



Section AdkForwards.
Context (env : Oracle AdkClient.Reply).
Hypothesis Hexc :
  ∀ tr q e, AdkClient.failure (runtime env tr q) = Some e → is_Exception e = true.

End AdkForwards.



(** ** The streamed answer of the terminal client *)





Section AgnoForwards.
Context (env : Oracle AgnoClient.Reply).

#[local] Arguments AgnoClient.agent_arun : simpl never.

End AgnoForwards.






(** ** Set-up and tear-down in [main] of the terminal client *)

Lemma mcp_url_state {X} args environ (s : X) :
  (Cli.mcp_url args environ s).2 = s.
Proof.
  pose proof (mcp_port_state args environ s) as Hs.
  unfold Cli.mcp_url, bind.
  destruct (Cli.mcp_port args environ s) as [[p | e] s']; simpl in *; by subst.
Qed.

Lemma events_since_refl w : events_since w w = [].
Proof. apply events_since_app. by rewrite app_nil_r. Qed.

#[local] Arguments AgnoClient.interactive_session : simpl never.

(** X16.  [main] of the terminal client closes its connection exactly
    when its set-up has completed.  If the welcome has not been printed
    (the port could not be read, or the connect, the second [list_tools],
    the tools or the agent raised), no session and no stream is ever
    closed, though they may have been entered.  If the welcome has been
    printed, the close of the session that the connect entered is
    attempted exactly once. *)
Theorem agno_main_closes_iff_set_up env args environ stdin w c :
  let evs := events_since w (AgnoClient.main env args environ stdin (w, c)).2.1 in
  (Print agno_welcome ∉ evs →
   forallb (λ ev, negb (is_close ev)) evs = true) ∧
  (Print agno_welcome ∈ evs →
   attempts (ClientSessionExit (S (next_id w))) evs = 1%nat).
Proof.
  intros evs. subst evs. unfold AgnoClient.main, bind.
  pose proof (mcp_url_state args environ (w, c)) as Hs.
  destruct (Cli.mcp_url args environ (w, c)) as [[url | e] s0].
  2:{ simpl in *. subst s0. simpl. rewrite events_since_refl.
      split; [done |]. intros Hin. by apply elem_of_nil in Hin. }
  simpl in Hs. subst s0.
  unfold AgnoClient.connect_to_sse_server, AgnoClient.self, bind.
  oracle_cases;
    try (erewrite events_since_app
           by (simpl; rewrite <- ?app_assoc; simpl; reflexivity);
         split; [reflexivity |];
         intros Hin; exfalso; elem_cases Hin).
  match goal with
  | |- context [AgnoClient.interactive_session env stdin (?w1, ?c1)] =>
      destruct (agno_session_run env stdin w1 c1)
        as (shown & r & Hrun & Hquiet & _);
      destruct (agno_deliberate_close_shape env (extend w1 shown) c1
                  (S (next_id w)) (next_id w) eq_refl eq_refl)
        as (err & rest & Htrace & _ & Hone);
      rewrite Hrun
  end.
  simpl. simpl in Htrace.
  erewrite events_since_app
    by (rewrite Htrace; simpl; rewrite <- !app_assoc; simpl; reflexivity).
  split.
  - intros Hnot. exfalso. apply Hnot.
    do 10 apply list_elem_of_further. apply list_elem_of_here.
  - intros _.
    change (attempts (ClientSessionExit (S (next_id w)))
              ([ Call (SseClientEnter (next_id w) url) None;
                 Call (ClientSessionNew (next_id w)) None;
                 Call (ClientSessionEnter (S (next_id w))) None;
                 Call (SessionInitialize (S (next_id w))) None;
                 Call (SessionListTools (S (next_id w))) None;
                 Call (SessionListTools (S (next_id w))) None;
                 Call (McpToolsNew (Some (S (next_id w)))) None;
                 Call (McpToolsInitialize (S (S (next_id w)))) None;
                 Call (AgentNew (AgnoClient.agent_config (S (S (next_id w))))) None;
                 Print ""; Print agno_welcome ]
               ++ shown ++ Call (ClientSessionExit (S (next_id w))) err :: rest)
            = 1%nat).
    rewrite !attempts_app, Hone, (attempts_session_exit_quiet _ shown Hquiet).
    reflexivity.
Qed.

(** ** Reading back a port that was written *)

Lemma is_nat_pretty_N_char k :
  (k < 10)%N → Ascii.is_nat (pretty_N_char k) = Some (N.to_nat k).
Proof.
  intros Hk.
  assert (k = 0 ∨ k = 1 ∨ k = 2 ∨ k = 3 ∨ k = 4 ∨ k = 5 ∨ k = 6 ∨ k = 7
          ∨ k = 8 ∨ k = 9)%N as Hcases by lia.
  repeat destruct Hcases as [-> | Hcases]; try reflexivity.
  subst. reflexivity.
Qed.

Lemma digit_cases c :
  is_Some (Ascii.is_nat c) →
  is_py_space c = false ∧ c ≠ "+"%char ∧ c ≠ "-"%char.
Proof.
  intros [k Hk]. destruct c as [[] [] [] [] [] [] [] []];
    try discriminate Hk; repeat split; discriminate.
Qed.

Lemma all_digits_pretty_N_go x s :
  all_digits s = true → all_digits (pretty_N_go x s) = true.
Proof.
  revert s. induction (N.lt_wf_0 x) as [x _ IH]; intros s Hs.
  assert (x = 0 ∨ 0 < x)%N as [-> | Hx] by lia; [by rewrite pretty_N_go_0 |].
  rewrite pretty_N_go_step by done.
  apply IH; [by apply N.div_lt |]. simpl.
  rewrite is_nat_pretty_N_char by (by apply N.mod_lt).
  rewrite bool_decide_eq_true_2 by eauto. exact Hs.
Qed.

Lemma pretty_N_go_nonempty x s : (0 < x)%N → pretty_N_go x s ≠ "".
Proof.
  revert s. induction (N.lt_wf_0 x) as [x _ IH]; intros s Hx.
  rewrite pretty_N_go_step by done.
  destruct (N.eq_0_gt_0_cases (x `div` 10)) as [-> | Hd].
  - by rewrite pretty_N_go_0.
  - apply IH; [by apply N.div_lt | done].
Qed.

Lemma int_digits_pretty_N_go x s b :
  (0 < x)%N →
  int_digits (pretty_N_go x s) 0 b = int_digits s (Z.of_N x) true.
Proof.
  revert s b. induction (N.lt_wf_0 x) as [x _ IH]; intros s b Hx.
  rewrite pretty_N_go_step by done.
  pose proof (N.div_mod x 10 ltac:(lia)) as Hdm.
  pose proof (N.mod_lt x 10 ltac:(lia)) as Hm.
  destruct (N.eq_0_gt_0_cases (x `div` 10)) as [Hd | Hd].
  - rewrite Hd, pretty_N_go_0. simpl.
    rewrite is_nat_pretty_N_char by done. f_equal.
    rewrite N_nat_Z. lia.
  - rewrite IH by (done || by apply N.div_lt). simpl.
    rewrite is_nat_pretty_N_char by done. f_equal.
    rewrite N_nat_Z. lia.
Qed.

Lemma rev_app_rev_app s t u :
  String.rev_app (String.rev_app s t) u = String.rev_app t (s +:+ u).
Proof.
  revert t u. induction s as [| a s IH]; intros t u; simpl; [done |].
  by rewrite IH.
Qed.

Lemma lstrip_digits s : all_digits s = true → lstrip s = s.
Proof.
  destruct s as [| c s]; simpl; [done |].
  intros [Hc _]%andb_prop. apply bool_decide_eq_true in Hc.
  by destruct (digit_cases c Hc) as [-> _].
Qed.

Lemma lstrip_rev_app s t :
  s ≠ "" → all_digits s = true →
  lstrip (String.rev_app s t) = String.rev_app s t.
Proof.
  revert t. induction s as [| c s IH]; intros t Hne Hs; [done |].
  simpl in *. apply andb_prop in Hs as [Hc Hs].
  apply bool_decide_eq_true in Hc.
  destruct s as [| c' s].
  - simpl. by destruct (digit_cases c Hc) as [-> _].
  - by apply IH.
Qed.

Lemma strip_digits s :
  s ≠ "" → all_digits s = true → strip s = s.
Proof.
  intros Hne Hs. unfold strip, String.rev.
  rewrite (lstrip_digits s Hs), (lstrip_rev_app s "" Hne Hs), rev_app_rev_app.
  simpl. apply string_app_nil_r.
Qed.

Lemma strip_minus_digits s :
  s ≠ "" → all_digits s = true → strip (String "-" s) = String "-" s.
Proof.
  intros Hne Hs. unfold strip, String.rev.
  change (lstrip (String "-" s)) with (String "-" s).
  change (String.rev_app (String "-" s) "") with (String.rev_app s "-").
  rewrite (lstrip_rev_app s "-" Hne Hs), rev_app_rev_app.
  simpl. by rewrite string_app_nil_r.
Qed.

Lemma int_literal_digits s :
  s ≠ "" → all_digits s = true → int_literal s = int_digits s 0 false.
Proof.
  intros Hne Hs. unfold int_literal. rewrite strip_digits by done.
  destruct s as [| c r]; [done |].
  simpl in Hs. apply andb_prop in Hs as [Hc _].
  apply bool_decide_eq_true in Hc. destruct Hc as [k Hk].
  destruct c as [[] [] [] [] [] [] [] []]; try discriminate Hk; reflexivity.
Qed.

(** [int(str(n)) == n] *)
Lemma int_literal_str_int n : int_literal (str_int n) = Some n.
Proof.
  unfold str_int, pretty, pretty_Z.
  destruct n as [| p | p]; [reflexivity | |].
  - unfold pretty, pretty_positive, pretty, pretty_N.
    destruct (decide (N.pos p = 0%N)) as [H | _]; [discriminate H |].
    rewrite int_literal_digits
      by (by apply pretty_N_go_nonempty || by apply all_digits_pretty_N_go).
    by rewrite int_digits_pretty_N_go.
  - unfold pretty, pretty_positive, pretty, pretty_N.
    destruct (decide (N.pos p = 0%N)) as [H | _]; [discriminate H |].
    rewrite string_app_cons. change ("" +:+ ?x) with x.
    unfold int_literal.
    rewrite strip_minus_digits
      by (by apply pretty_N_go_nonempty || by apply all_digits_pretty_N_go).
    by rewrite int_digits_pretty_N_go.
Qed.

Lemma mcp_url_port_from_environ {X} host_flag n environ (s : X) :
  n ≠ 0 →
  Cli.mcp_url (Cli.mkArgs host_flag None) (<["MCP_PORT" := str_int n]> environ) s
  = Cli.mcp_url (Cli.mkArgs host_flag (Some n)) environ s.
Proof.
  intros Hn.
  unfold Cli.mcp_url, Cli.mcp_port, Cli.mcp_host, Cli.environ_get, truthy_int,
    py_int, bind. simpl.
  rewrite lookup_insert_eq, lookup_insert_ne by done. simpl.
  rewrite int_literal_str_int.
  destruct (decide (n = 0)); [done | reflexivity].
Qed.

Lemma mcp_url_host_from_environ {X} h port_flag environ (s : X) :
  h ≠ "" →
  Cli.mcp_url (Cli.mkArgs None port_flag) (<["MCP_HOST" := h]> environ) s
  = Cli.mcp_url (Cli.mkArgs (Some h) port_flag) environ s.
Proof.
  intros Hh.
  unfold Cli.mcp_url, Cli.mcp_port, Cli.mcp_host, Cli.environ_get, truthy_str,
    bind. simpl.
  rewrite lookup_insert_eq, lookup_insert_ne by done. simpl.
  destruct (decide (h = "")); [done | reflexivity].
Qed.

(** X17.  In both terminal clients a flag and its environment variable
    are interchangeable: a run with [--port n], for [n] other than zero,
    is the run without the flag and with [MCP_PORT] set to the decimal text
    of [n] (which [int] reads back as [n]), and a run with [--host h], for
    [h] not empty, is the run without the flag and with [MCP_HOST] set to
    [h]. *)
Theorem flag_or_environment n h environ stdin :
  n ≠ 0 → h ≠ "" →
  int_literal (str_int n) = Some n
  ∧ (∀ env host_flag s,
       AgnoClient.main env (Cli.mkArgs host_flag None)
         (<["MCP_PORT" := str_int n]> environ) stdin s
       = AgnoClient.main env (Cli.mkArgs host_flag (Some n)) environ stdin s)
  ∧ (∀ env host_flag s,
       AdkClient.main env (Cli.mkArgs host_flag None)
         (<["MCP_PORT" := str_int n]> environ) stdin s
       = AdkClient.main env (Cli.mkArgs host_flag (Some n)) environ stdin s)
  ∧ (∀ env port_flag s,
       AgnoClient.main env (Cli.mkArgs None port_flag)
         (<["MCP_HOST" := h]> environ) stdin s
       = AgnoClient.main env (Cli.mkArgs (Some h) port_flag) environ stdin s)
  ∧ (∀ env port_flag s,
       AdkClient.main env (Cli.mkArgs None port_flag)
         (<["MCP_HOST" := h]> environ) stdin s
       = AdkClient.main env (Cli.mkArgs (Some h) port_flag) environ stdin s).
Proof.
  intros Hn Hh. split; [apply int_literal_str_int |].
  repeat split; intros env flag s.
  - unfold AgnoClient.main, bind. by rewrite mcp_url_port_from_environ.
  - unfold AdkClient.main, bind. by rewrite mcp_url_port_from_environ.
  - unfold AgnoClient.main, bind. by rewrite mcp_url_host_from_environ.
  - unfold AdkClient.main, bind. by rewrite mcp_url_host_from_environ.
Qed.

Lemma flag_or_environment_witness :
  AdkClient.main Scenario.adk_ok (Cli.mkArgs None None)
    (<["MCP_PORT" := str_int 9000]> ∅) [Return "quit"] (Scenario.w0, tt)
  = AdkClient.main Scenario.adk_ok (Cli.mkArgs None (Some 9000)) ∅
      [Return "quit"] (Scenario.w0, tt).
Proof.
  destruct (flag_or_environment 9000 "example.org" ∅ [Return "quit"])
    as (_ & _ & Hadk & _); [discriminate | discriminate |].
  apply Hadk.
Defined.

(** ** Set-up in [main] of the ADK client *)

#[local] Arguments AdkClient.loop : simpl never.



Lemma agno_main_closes_iff_set_up_witness :
  let evs := events_since Scenario.w0
               (AgnoClient.main Scenario.agno_no_handshake Scenario.no_args ∅
                  [Return "quit"]
                  (Scenario.w0, AgnoClient.MCPClient_init)).2.1 in
  forallb (λ ev, negb (is_close ev)) evs = true.
Proof.
  apply (proj1 (agno_main_closes_iff_set_up Scenario.agno_no_handshake
                  Scenario.no_args ∅ [Return "quit"] Scenario.w0
                  AgnoClient.MCPClient_init)).
  intros Hin. vm_compute in Hin. elem_cases Hin.
Defined.

(** ** The status that [connect_handler] shows *)

Lemma gradio_connect_connected env host port w a :
  GradioClient.connected a = false →
  let run := GradioClient.connect env host port (w, a) in
  (GradioClient.connected run.2.2 = true
   ↔ run.1 = Return "Connected successfully! Ready to assist you.")
  ∧ (∀ e, run.1 = Raise e → is_ValueError e = true ∨ is_Exception e = true →
          GradioClient.connected run.2.2 = false).
Proof.
  intros Hc run. subst run.
  unfold GradioClient.connect, GradioClient.this, bind. simpl. rewrite Hc.
  unfold GradioClient.connect_steps, GradioClient.connect_failed,
    GradioClient.with_client, GradioClient.connect_to_sse_server,
    GradioClient.disconnect, GradioClient.cleanup, GradioClient.this,
    try_except, bind.
  destruct a as [cl ag co]. simpl in Hc. subst co.
  oracle_cases;
    (split;
     [ split; intros H;
       first [ reflexivity
             | discriminate H
             | exfalso; inversion H as [Hs]; vm_compute in Hs; discriminate Hs ]
     | intros e' He' _; first [reflexivity | discriminate He'] ]).
Qed.

(** X19.  The status of a connect request on an assistant that is not
    connected tells whether it is connected afterwards: when
    [connect_handler] returns a status, the assistant is connected exactly
    when the status is the message of success, and [enable_chat] on that
    message makes the chat controls interactive. *)
Theorem connect_handler_status_tells env host port w g status s' :
  GradioClient.connected (GradioClient.assistant g) = false →
  GradioClient.connect_handler env host port (w, g) = (Return status, s') →
  (GradioClient.connected (GradioClient.assistant s'.2) = true
   ↔ status = "Connected successfully! Ready to assist you.")
  ∧ (status = "Connected successfully! Ready to assist you." →
     GradioClient.enable_chat status
     = GradioClient.mkChatControls true "Type your message here..." true).
Proof.
  intros Hc H. split; [| by intros ->].
  unfold GradioClient.connect_handler, GradioClient.on_assistant, try_except,
    bind, py_int in H.
  destruct (int_literal port) as [n |]; simpl in H.
  2:{ inversion H; subst; simpl. rewrite Hc. split; intros Hs; discriminate Hs. }
  destruct (gradio_connect_connected env host n w (GradioClient.assistant g) Hc)
    as [Hiff Hraise].
  destruct (GradioClient.connect env host n (w, GradioClient.assistant g))
    as [[st | e] [w1 a1]]; simpl in *.
  - inversion H; subst; simpl. rewrite Hiff.
    split; [intros Hs; by injection Hs | by intros ->].
  - destruct (is_ValueError e) eqn:Hv; simpl in H.
    + inversion H; subst; simpl. rewrite (Hraise e eq_refl) by eauto.
      split; intros Hs; discriminate Hs.
    + destruct (is_Exception e) eqn:Hx; simpl in H; [| discriminate H].
      inversion H; subst; simpl. rewrite (Hraise e eq_refl) by eauto.
      split; intros Hs; [discriminate Hs |].
      exfalso. vm_compute in Hs. discriminate Hs.
Qed.

Lemma connect_handler_status_tells_witness :
  let run := GradioClient.connect_handler Scenario.gradio_ok "localhost" " 8_001 "
               (Scenario.w0,
                GradioClient.mkGlobals GradioClient.ZerodhaAssistant_init []) in
  (GradioClient.connected (GradioClient.assistant run.2.2) = true
   ↔ "Connected successfully! Ready to assist you."
     = "Connected successfully! Ready to assist you.")
  ∧ ("Connected successfully! Ready to assist you."
     = "Connected successfully! Ready to assist you." →
     GradioClient.enable_chat "Connected successfully! Ready to assist you."
     = GradioClient.mkChatControls true "Type your message here..." true).
Proof.
  intros run.
  apply (connect_handler_status_tells Scenario.gradio_ok "localhost" " 8_001 "
           Scenario.w0
           (GradioClient.mkGlobals GradioClient.ZerodhaAssistant_init [])
           "Connected successfully! Ready to assist you." run.2);
    reflexivity.
Defined.
